(** * sendwithus_go: the SendWithUs client of [swu.go]

    A shallow embedding of the client in [swu.go] and the properties of its
    request pipeline ([makeRequest]), its error mapping ([newSWUError]) and
    the JSON and query-string shapes of its data-transfer records.

    Layout:
    - [Bytes]   Go strings as byte strings, UTF-8 rune boundaries;
    - [JSON]    the documents of encoding/json: values, the text the encoder
                writes, the scanner and decoder that read a text back;
    - [NetURL]  net/url's query escaping and [Values.Encode];
    - the records of [swu.go] with their [json] and [url] struct tags;
    - [HTTP]    requests, responses and what [Client.Do] returns;
    - errors, the client and its methods, in the order of the source;
    - the requests, texts and stub transports the properties speak of;
    - the properties: the request pipeline and its error mapping first,
      then the shapes of requests and results, then worked calls.

    The libraries the source imports (encoding/json, net/http, net/url,
    go-querystring, the [errors] package) are not part of [swu.go]; they are
    modelled here by what they do on the types [swu.go] hands them. *)

From Stdlib Require Import ZArith NArith Bool Ascii String List Lia.
From stdpp Require Import base option list strings gmap pretty sorting.

Local Open Scope Z_scope.
Local Open Scope string_scope.

(** ** Byte strings *)

Module Bytes.

(** A Go [string] is a sequence of bytes; [ascii] is the byte. *)
Definition byte_val (b : ascii) : N := N_of_ascii b.

Definition in_range (lo hi : N) (b : ascii) : bool :=
  ((lo <=? byte_val b) && (byte_val b <=? hi))%N.

Definition hex_digit (n : N) : ascii :=
  match n with
  | 0 => "0" | 1 => "1" | 2 => "2" | 3 => "3" | 4 => "4" | 5 => "5"
  | 6 => "6" | 7 => "7" | 8 => "8" | 9 => "9" | 10 => "a" | 11 => "b"
  | 12 => "c" | 13 => "d" | 14 => "e" | _ => "f"
  end%N%char.

Definition upper_hex_digit (n : N) : ascii :=
  match n with
  | 10 => "A" | 11 => "B" | 12 => "C" | 13 => "D" | 14 => "E" | 15 => "F"
  | _ => hex_digit n
  end%N%char.

Definition hex_value (c : ascii) : option N :=
  if in_range 48 57 c then Some (byte_val c - 48)%N
  else if in_range 97 102 c then Some (byte_val c - 87)%N
  else if in_range 65 70 c then Some (byte_val c - 55)%N
  else None.

(** [utf8.DecodeRuneInString] as far as its callers here need it: the
    number of bytes of the rune that starts [s] when that rune is a
    well-formed multi-byte one, and [0] when the decoder answers
    [(RuneError, 1)].  The second byte's range depends on the first
    (no overlong forms, no surrogates, nothing above U+10FFFF). *)
Definition utf8_len (s : string) : nat :=
  let cont := in_range 128 191 in
  match s with
  | String b0 (String b1 r1) =>
      if in_range 194 223 b0 then (if cont b1 then 2 else 0)%nat
      else
        let second_ok :=
          if in_range 224 224 b0 then in_range 160 191 b1
          else if in_range 237 237 b0 then in_range 128 159 b1
          else if in_range 225 239 b0 then cont b1
          else if in_range 240 240 b0 then in_range 144 191 b1
          else if in_range 241 243 b0 then cont b1
          else if in_range 244 244 b0 then in_range 128 143 b1
          else false in
        if negb second_ok then 0%nat
        else match r1 with
             | String b2 r2 =>
                 if negb (cont b2) then 0%nat
                 else if in_range 224 239 b0 then 3%nat
                 else match r2 with
                      | String b3 _ => if cont b3 then 4%nat else 0%nat
                      | EmptyString => 0%nat
                      end
             | EmptyString => 0%nat
             end
  | _ => 0%nat
  end.

(** The UTF-8 bytes of a code point ([utf8.AppendRune] of a valid rune). *)
Definition utf8_encode (r : N) : string :=
  let b (n : N) := ascii_of_N n in
  (if r <? 128 then String (b r) ""
   else if r <? 2048 then
     String (b (192 + r / 64)) (String (b (128 + r mod 64)) "")
   else if r <? 65536 then
     String (b (224 + r / 4096))
       (String (b (128 + (r / 64) mod 64)) (String (b (128 + r mod 64)) ""))
   else
     String (b (240 + r / 262144))
       (String (b (128 + (r / 4096) mod 64))
          (String (b (128 + (r / 64) mod 64))
             (String (b (128 + r mod 64)) ""))))%N.

Definition dquote : ascii := "034"%char.

(** U+FFFD, what both the encoder and the decoder put for a byte that is
    not part of a well-formed rune. *)
Definition replacement : string := utf8_encode 65533.

End Bytes.

(** ** JSON documents (encoding/json) *)

Module JSON.
Import Bytes.

(** A JSON value.  A number keeps its literal, as the decoder does until
    it knows the type of the Go field it is read into. *)
#[local] Unset Elimination Schemes.
Inductive json : Type :=
| JNull
| JBool (b : bool)
| JNumber (lit : string)
| JString (s : string)
| JArray (items : list json)
| JObject (members : list (string * json)).
#[local] Set Elimination Schemes.


(** *** The encoder's text *)

(** [htmlSafeSet]: the ASCII bytes [Marshal] copies unescaped. *)
Definition html_safe (b : ascii) : bool :=
  in_range 32 127 b &&
  negb (existsb (Ascii.eqb b) [dquote; "\"; "<"; ">"; "&"]%char).

(** The escape of an ASCII byte outside [htmlSafeSet]. *)
Definition escape_byte (b : ascii) : string :=
  let n := byte_val b in
  match n with
  | 92 | 34 => String "\" (String b "")
  | 8 => "\b" | 12 => "\f" | 10 => "\n" | 13 => "\r" | 9 => "\t"
  | _ => "\u00" +:+ String (hex_digit (n / 16)) (String (hex_digit (n mod 16)) "")
  end%N.

(** [appendString] with [escapeHTML] set, without the quotes.  [skip]
    counts the continuation bytes of a rune whose first byte has been
    copied already. *)
Fixpoint escape_string (skip : nat) (s : string) : string :=
  match s with
  | EmptyString => ""
  | String b rest =>
      match skip with
      | S k => String b (escape_string k rest)
      | O =>
          if (byte_val b <? 128)%N then
            (if html_safe b then String b "" else escape_byte b)
              +:+ escape_string 0 rest
          else
            match s with
            | String "226" (String "128" (String "168" rest')) =>
                "\" +:+ "u2028" +:+ escape_string 0 rest'
            | String "226" (String "128" (String "169" rest')) =>
                "\" +:+ "u2029" +:+ escape_string 0 rest'
            | _ =>
                match utf8_len s with
                | O => "\" +:+ "ufffd" +:+ escape_string 0 rest
                | S k => String b (escape_string k rest)
                end
            end
      end
  end.

Definition quote (s : string) : string :=
  String dquote (escape_string 0 s) +:+ String dquote "".

Definition join (sep : string) (l : list string) : string :=
  match l with
  | [] => ""
  | x :: xs => fold_left (fun acc y => acc +:+ sep +:+ y) xs x
  end.

(** The compact text [Marshal] writes for a value. *)
Fixpoint render (v : json) : string :=
  match v with
  | JNull => "null"
  | JBool true => "true"
  | JBool false => "false"
  | JNumber lit => lit
  | JString s => quote s
  | JArray items => "[" +:+ join "," (map render items) +:+ "]"
  | JObject members =>
      "{" +:+ join "," (map (fun kv => quote (fst kv) +:+ ":" +:+ render (snd kv))
                          members) +:+ "}"
  end.

(** *** The scanner

    [Unmarshal] first runs its scanner over the whole text ([checkValid]):
    a state machine that reads one byte at a time and keeps the open
    arrays and objects on a stack.  The machine below is that scanner,
    building the value as it goes. *)

Inductive frame : Type :=
| InArray (done_rev : list json)
| InObject (done_rev : list (string * json)) (key : option string).

Inductive numstate : Type :=
| NNeg | N0 | N1 | NDot | NDot0 | NE | NESign | NE0.

Inductive lex : Type :=
| BeginValue                 (* stateBeginValue *)
| BeginValueOrEmpty          (* after the bracket that opens an array *)
| BeginStringOrEmpty         (* after the brace that opens an object *)
| BeginString                (* after a comma in an object *)
| AfterKey                   (* after a key: a colon is due *)
| EndValue                   (* stateEndValue, inside an array or object *)
| InString (is_key : bool) (raw_rev : string)
| InStringEsc (is_key : bool) (raw_rev : string)
| InStringEscU (is_key : bool) (raw_rev : string) (remaining : nat)
| InNumber (lit_rev : string) (n : numstate)
| InLiteral (rest : string) (lit : json)
| Done (v : json).           (* stateEndTop *)

Definition state : Type := lex * list frame.

Definition is_space (c : ascii) : bool :=
  existsb (Ascii.eqb c) [" "; "009"; "013"; "010"]%char.

Definition is_digit (c : ascii) : bool := in_range 48 57 c.

Definition maxNestingDepth : N := 10000.

Definition push (f : frame) (l : lex) (stack : list frame) : option state :=
  if (N.of_nat (length (f :: stack)) <=? maxNestingDepth)%N
  then Some (l, f :: stack) else None.

(** A value has ended: hand it to the array or object it belongs to. *)
Definition finish (v : json) (stack : list frame) : option state :=
  match stack with
  | [] => Some (Done v, [])
  | InArray done_rev :: st => Some (EndValue, InArray (v :: done_rev) :: st)
  | InObject done_rev (Some k) :: st =>
      Some (EndValue, InObject ((k, v) :: done_rev) None :: st)
  | InObject _ None :: _ => None
  end.

(** [unquote]: the Go string of a string literal's text (the bytes
    between the quotes, already accepted by the scanner). *)
Definition hex4 (a b c d : ascii) : option N :=
  match hex_value a, hex_value b, hex_value c, hex_value d with
  | Some x, Some y, Some z, Some w => Some (((x * 16 + y) * 16 + z) * 16 + w)%N
  | _, _, _, _ => None
  end.

Definition is_surrogate (r : N) : bool := ((55296 <=? r) && (r <? 57344))%N.

(** [utf16.DecodeRune]: [None] stands for the replacement character. *)
Definition utf16_decode (r1 : N) (r2 : option N) : option N :=
  match r2 with
  | Some r2 =>
      if ((55296 <=? r1) && (r1 <? 56320) && (56320 <=? r2) && (r2 <? 57344))%N
      then Some ((r1 - 55296) * 1024 + (r2 - 56320) + 65536)%N
      else None
  | None => None
  end.

Definition simple_escape (e : ascii) : string :=
  (if Ascii.eqb e "b" then String "008" ""
   else if Ascii.eqb e "f" then String "012" ""
   else if Ascii.eqb e "n" then String "010" ""
   else if Ascii.eqb e "r" then String "013" ""
   else if Ascii.eqb e "t" then String "009" ""
   else String e "")%char.

Fixpoint unquote (skip : nat) (s : string) : string :=
  match s with
  | EmptyString => ""
  | String b rest =>
      match skip with
      | S k => String b (unquote k rest)
      | O =>
          if Ascii.eqb b "\" then
            match rest with
            | String "u" (String h1 (String h2 (String h3 (String h4 rest4)))) =>
                match hex4 h1 h2 h3 h4 with
                | None => ""
                | Some rr =>
                    if is_surrogate rr then
                      match rest4 with
                      | String "\" (String "u" (String g1 (String g2
                          (String g3 (String g4 rest10))))) =>
                          match utf16_decode rr (hex4 g1 g2 g3 g4) with
                          | Some r => utf8_encode r +:+ unquote 0 rest10
                          | None => replacement +:+ unquote 0 rest4
                          end
                      | _ => replacement +:+ unquote 0 rest4
                      end
                    else utf8_encode rr +:+ unquote 0 rest4
                end
            | String e rest1 => simple_escape e +:+ unquote 0 rest1
            | EmptyString => ""
            end
          else if (byte_val b <? 128)%N then String b (unquote 0 rest)
          else match utf8_len s with
               | O => replacement +:+ unquote 0 rest
               | S k => String b (unquote k rest)
               end
      end
  end.

Definition string_of_raw (raw_rev : string) : string :=
  unquote 0 (String.rev raw_rev).

Definition begin_value (c : ascii) (stack : list frame) : option state :=
  (if Ascii.eqb c "{" then push (InObject [] None) BeginStringOrEmpty stack
   else if Ascii.eqb c "[" then push (InArray []) BeginValueOrEmpty stack
   else if Ascii.eqb c dquote then Some (InString false "", stack)
   else if Ascii.eqb c "-" then Some (InNumber "-" NNeg, stack)
   else if Ascii.eqb c "0" then Some (InNumber "0" N0, stack)
   else if Ascii.eqb c "t" then Some (InLiteral "rue" (JBool true), stack)
   else if Ascii.eqb c "f" then Some (InLiteral "alse" (JBool false), stack)
   else if Ascii.eqb c "n" then Some (InLiteral "ull" JNull, stack)
   else if in_range 49 57 c then Some (InNumber (String c "") N1, stack)
   else None)%char.

(** [stateEndValue] on a byte that is not white space. *)
Definition end_value (c : ascii) (stack : list frame) : option state :=
  match stack with
  | InArray done_rev :: st =>
      if Ascii.eqb c "," then Some (BeginValue, stack)
      else if Ascii.eqb c "]" then finish (JArray (rev done_rev)) st
      else None
  | InObject done_rev None :: st =>
      if Ascii.eqb c "," then Some (BeginString, stack)
      else if Ascii.eqb c "}" then finish (JObject (rev done_rev)) st
      else None
  | _ => None
  end%char.

(** The byte that follows a value that has just ended. *)
Definition after_value (c : ascii) (s : state) : option state :=
  match s with
  | (Done _, _) => if is_space c then Some s else None
  | (EndValue, stack) => if is_space c then Some s else end_value c stack
  | _ => None
  end.

Definition num_next (n : numstate) (c : ascii) : option numstate :=
  let e := (Ascii.eqb c "e" || Ascii.eqb c "E")%char in
  let dot := Ascii.eqb c "."%char in
  match n with
  | NNeg => if Ascii.eqb c "0"%char then Some N0
            else if is_digit c then Some N1 else None
  | N0 => if dot then Some NDot else if e then Some NE else None
  | N1 => if is_digit c then Some N1
          else if dot then Some NDot else if e then Some NE else None
  | NDot => if is_digit c then Some NDot0 else None
  | NDot0 => if is_digit c then Some NDot0 else if e then Some NE else None
  | NE => if (Ascii.eqb c "+" || Ascii.eqb c "-")%char then Some NESign
          else if is_digit c then Some NE0 else None
  | NESign => if is_digit c then Some NE0 else None
  | NE0 => if is_digit c then Some NE0 else None
  end.

Definition num_final (n : numstate) : bool :=
  match n with N0 | N1 | NDot0 | NE0 => true | _ => false end.

(** One byte of input. [None] is the scanner's syntax error. *)
Definition step (s : state) (c : ascii) : option state :=
  let '(l, stack) := s in
  match l with
  | BeginValue =>
      if is_space c then Some s else begin_value c stack
  | BeginValueOrEmpty =>
      if is_space c then Some s
      else if Ascii.eqb c "]"%char then end_value c stack
      else begin_value c stack
  | BeginStringOrEmpty =>
      if is_space c then Some s
      else if Ascii.eqb c "}"%char then end_value c stack
      else if Ascii.eqb c dquote then Some (InString true "", stack)
      else None
  | BeginString =>
      if is_space c then Some s
      else if Ascii.eqb c dquote then Some (InString true "", stack)
      else None
  | AfterKey =>
      if is_space c then Some s
      else if Ascii.eqb c ":"%char then Some (BeginValue, stack)
      else None
  | EndValue | Done _ => after_value c s
  | InString k raw =>
      if Ascii.eqb c dquote then
        if k then
          match stack with
          | InObject done_rev None :: st =>
              Some (AfterKey, InObject done_rev (Some (string_of_raw raw)) :: st)
          | _ => None
          end
        else finish (JString (string_of_raw raw)) stack
      else if Ascii.eqb c "\"%char then Some (InStringEsc k (String c raw), stack)
      else if (byte_val c <? 32)%N then None
      else Some (InString k (String c raw), stack)
  | InStringEsc k raw =>
      if existsb (Ascii.eqb c) ["b"; "f"; "n"; "r"; "t"; "\"; "/"; dquote]%char
      then Some (InString k (String c raw), stack)
      else if Ascii.eqb c "u"%char then Some (InStringEscU k (String c raw) 4, stack)
      else None
  | InStringEscU k raw remaining =>
      match hex_value c, remaining with
      | Some _, S O => Some (InString k (String c raw), stack)
      | Some _, S k' => Some (InStringEscU k (String c raw) k', stack)
      | _, _ => None
      end
  | InNumber lit n =>
      match num_next n c with
      | Some n' => Some (InNumber (String c lit) n', stack)
      | None =>
          if num_final n
          then finish (JNumber (String.rev lit)) stack ≫= after_value c
          else None
      end
  | InLiteral rest v =>
      match rest with
      | String x rest' =>
          if Ascii.eqb c x then
            match rest' with
            | EmptyString => finish v stack
            | _ => Some (InLiteral rest' v, stack)
            end
          else None
      | EmptyString => None
      end
  end.

Fixpoint scan (s : state) (text : string) : option state :=
  match text with
  | EmptyString => Some s
  | String c rest => step s c ≫= fun s' => scan s' rest
  end.

(** The end of the text ([scanner.eof]): a number that runs up to the
    end is closed by a space. *)
Definition eof (s : state) : option json :=
  match s with
  | (Done v, _) => Some v
  | _ => match step s " "%char with
         | Some (Done v, _) => Some v
         | _ => None
         end
  end.

(** The document a text holds; [None] when [checkValid] rejects it. *)
Definition parse (text : string) : option json :=
  scan (BeginValue, []) text ≫= eof.

(** *** Reading a document into a Go value ([Unmarshal])

    After the scanner has accepted the text, the decoder walks the
    document in order and stores what fits.  A value of the wrong kind is
    skipped; the first such mismatch is remembered and returned at the
    end, with the rest of the document still decoded. *)

Inductive json_error : Type :=
| SyntaxError
| UnmarshalTypeError (value : string).

(** The [Value] field of an [UnmarshalTypeError] for a value of the wrong
    kind.  (A number that does not fit the integer it is read into has
    its literal after [number], see [int64_unmarshaler].) *)
Definition describe (v : json) : string :=
  match v with
  | JNull => "null"
  | JBool _ => "bool"
  | JNumber _ => "number"
  | JString _ => "string"
  | JArray _ => "array"
  | JObject _ => "object"
  end.

Definition mismatch (v : json) : option json_error :=
  Some (UnmarshalTypeError (describe v)).

(** [saveError]: only the first error is kept. *)
Definition first_error (e1 e2 : option json_error) : option json_error :=
  match e1 with Some _ => e1 | None => e2 end.

(** A Go type that [Unmarshal] can fill: its zero value and the effect of
    storing a document into a variable that holds [old]. *)
Class Unmarshaler (A : Type) := {
  zero : A;
  decode : json -> A -> A * option json_error
}.

(** A Go type that [Marshal] can write, and [isEmptyValue], which decides
    what an [omitempty] tag leaves out. *)
Class Marshaler (A : Type) := {
  encode : A -> json;
  is_empty : A -> bool
}.

(** [strconv.ParseInt(lit, 10, 64)] on a number literal of the scanner. *)
Fixpoint digits_value (acc : Z) (s : string) : option Z :=
  match s with
  | EmptyString => Some acc
  | String c rest =>
      if is_digit c
      then digits_value (acc * 10 + Z.of_N (byte_val c - 48)) rest
      else None
  end.

Definition parse_int64 (lit : string) : option Z :=
  let in_int64 (z : Z) :=
    if ((- 2 ^ 63 <=? z) && (z <? 2 ^ 63))%Z then Some z else None in
  match lit with
  | String "-" (String c rest) => digits_value 0 (String c rest) ≫= fun z => in_int64 (- z)
  | String _ _ => digits_value 0 lit ≫= in_int64
  | EmptyString => None
  end.

#[export] Instance string_unmarshaler : Unmarshaler string := {|
  zero := "";
  decode v old :=
    match v with
    | JString s => (s, None)
    | JNull => (old, None)
    | _ => (old, mismatch v)
    end
|}.

(** [int64] *)
#[export] Instance int64_unmarshaler : Unmarshaler Z := {|
  zero := 0%Z;
  decode v old :=
    match v with
    | JNumber lit =>
        match parse_int64 lit with
        | Some z => (z, None)
        | None => (old, Some (UnmarshalTypeError ("number " +:+ lit)))
        end
    | JNull => (old, None)
    | _ => (old, mismatch v)
    end
|}.

#[export] Instance bool_unmarshaler : Unmarshaler bool := {|
  zero := false;
  decode v old :=
    match v with
    | JBool b => (b, None)
    | JNull => (old, None)
    | _ => (old, mismatch v)
    end
|}.

(** A pointer [*T]: [null] makes it nil, anything else is stored into what
    it points to, which is allocated first when the pointer is nil. *)
#[export] Instance pointer_unmarshaler {A} `{Unmarshaler A} : Unmarshaler (option A) := {|
  zero := None;
  decode v old :=
    match v with
    | JNull => (None, None)
    | _ => let '(a, e) := decode v (default zero old) in (Some a, e)
    end
|}.

(** The elements of an array, stored one by one into a slice: element [i]
    goes into the slot the slice already has at [i], or into a fresh one. *)
Fixpoint decode_items {A} `{Unmarshaler A} (items : list json) (old : list A)
  : list A * option json_error :=
  match items with
  | [] => ([], None)
  | v :: items' =>
      let '(a, e) := decode v (default zero (head old)) in
      let '(rest, e') := decode_items items' (tail old) in
      (a :: rest, first_error e e')
  end.

(** A slice [[]T]; the nil slice and the empty one are both [[]]. *)
#[export] Instance slice_unmarshaler {A} `{Unmarshaler A} : Unmarshaler (list A) := {|
  zero := [];
  decode v old :=
    match v with
    | JArray items => decode_items items old
    | JNull => ([], None)
    | _ => (old, mismatch v)
    end
|}.

(** *** Struct fields

    A key of the document selects the field whose [json] name it equals,
    or else the field whose name it equals when letter case is ignored
    (the long s and the Kelvin sign fold to [s] and [k]). *)
Definition upper (c : ascii) : ascii :=
  if in_range 97 122 c then ascii_of_N (byte_val c - 32) else c.

Fixpoint foldName (s : string) : string :=
  match s with
  | String "197" (String "191" rest) => String "S" (foldName rest)
  | String "226" (String "132" (String "170" rest)) => String "K" (foldName rest)
  | String c rest => String (upper c) (foldName rest)
  | EmptyString => ""
  end.

Definition Field (S : Type) : Type :=
  string * (json -> S -> S * option json_error).

Definition find_field {S} (fields : list (Field S)) (key : string)
  : option (Field S) :=
  match List.find (fun f => String.eqb (fst f) key) fields with
  | Some f => Some f
  | None =>
      List.find (fun f => String.eqb (foldName (fst f)) (foldName key)) fields
  end.

Definition decode_members {S} (fields : list (Field S))
    (members : list (string * json)) (s : S) : S * option json_error :=
  fold_left
    (fun acc kv =>
       match find_field fields (fst kv) with
       | None => acc
       | Some f =>
           let '(s', e) := snd f (snd kv) (fst acc) in
           (s', first_error (snd acc) e)
       end)
    members (s, None).

(** [d.object] for a struct with the given fields. *)
Definition decode_struct {S} (fields : list (Field S)) (v : json) (old : S)
  : S * option json_error :=
  match v with
  | JObject members => decode_members fields members old
  | JNull => (old, None)
  | _ => (old, mismatch v)
  end.

(** A field of type [A], read with [get] and written with [set]. *)
Definition field {S A} `{Unmarshaler A} (name : string)
    (get : S -> A) (set : A -> S -> S) : Field S :=
  (name, fun v s => let '(a, e) := decode v (get s) in (set a s, e)).

(** [json.Unmarshal(text, &sink)]: a text the scanner rejects leaves the
    sink as it was. *)
Definition Unmarshal {A} `{Unmarshaler A} (text : string) (sink : A)
  : A * option json_error :=
  match parse text with
  | None => (sink, Some SyntaxError)
  | Some v => decode v sink
  end.

(** *** Writing a Go value ([Marshal]) *)

#[export] Instance string_marshaler : Marshaler string := {|
  encode s := JString s;
  is_empty s := String.eqb s ""
|}.

#[export] Instance int_marshaler : Marshaler Z := {|
  encode z := JNumber (pretty z);
  is_empty z := (z =? 0)%Z
|}.

#[export] Instance bool_marshaler : Marshaler bool := {|
  encode b := JBool b;
  is_empty b := negb b
|}.

#[export] Instance pointer_marshaler {A} `{Marshaler A} : Marshaler (option A) := {|
  encode p := match p with Some a => encode a | None => JNull end;
  is_empty p := match p with Some _ => false | None => true end
|}.

(** A slice of length 0 is taken to be the nil slice, which is written
    [null]; every slice of [swu.go] sits under [omitempty], which leaves
    a slice of length 0 out whether it is nil or not. *)
#[export] Instance slice_marshaler {A} `{Marshaler A} : Marshaler (list A) := {|
  encode l := match l with [] => JNull | _ => JArray (map encode l) end;
  is_empty l := match l with [] => true | _ => false end
|}.

Definition key_le (a b : string * string) : Prop := String.le (fst a) (fst b).

#[export] Instance key_le_dec : RelDecision key_le :=
  fun a b => decide (String.le (fst a) (fst b)).

(** [map[string]string]: the members are written in the order of their
    keys; the map of size 0 is taken to be the nil map. *)
#[export] Instance map_marshaler : Marshaler (gmap string string) := {|
  encode m :=
    match map_to_list m with
    | [] => JNull
    | l => JObject (map (fun kv => (fst kv, JString (snd kv))) (merge_sort key_le l))
    end;
  is_empty m := match map_to_list m with [] => true | _ => false end
|}.

(** One field of a struct that is being written. *)
Definition member {A} `{Marshaler A} (name : string) (omitempty : bool) (a : A)
  : list (string * json) :=
  if omitempty && is_empty a then [] else [(name, encode a)].

(** [json.Marshal]: the text of the value's document. *)
Definition Marshal {A} `{Marshaler A} (a : A) : string := render (encode a).

End JSON.

(** ** Query strings (net/url) *)

Module NetURL.
Import Bytes.

Definition is_alnum (c : ascii) : bool :=
  in_range 97 122 c || in_range 65 90 c || in_range 48 57 c.

(** [shouldEscape(c, encodeQueryComponent)] *)
Definition shouldEscape (c : ascii) : bool :=
  negb (is_alnum c || existsb (Ascii.eqb c) ["-"; "_"; "."; "~"]%char).

(** [url.QueryEscape] *)
Fixpoint QueryEscape (s : string) : string :=
  match s with
  | EmptyString => ""
  | String c rest =>
      (if Ascii.eqb c " "%char then "+"
       else if shouldEscape c
            then String "%" (String (upper_hex_digit (byte_val c / 16))
                               (String (upper_hex_digit (byte_val c mod 16)) ""))
            else String c "")
      +:+ QueryEscape rest
  end.

(** [url.Values]: the values recorded under each key. *)
Abbreviation Values := (gmap string (list string)).

(** [Values.Add] *)
Definition Add (key value : string) (v : Values) : Values :=
  <[key := (default [] (v !! key) ++ [value])%list]> v.

Definition by_key (a b : string * list string) : Prop := String.le (fst a) (fst b).

#[export] Instance by_key_dec : RelDecision by_key :=
  fun a b => decide (String.le (fst a) (fst b)).

(** [Values.Encode]: [key=value] pairs joined by [&], keys in order. *)
Definition Encode (v : Values) : string :=
  JSON.join "&"
    (flat_map (fun kv => map (fun x => QueryEscape (fst kv) +:+ "=" +:+ QueryEscape x)
                           (snd kv))
              (merge_sort by_key (map_to_list v))).

End NetURL.

(** ** The records of [swu.go] *)

Import JSON.

Definition swuEndpoint : string := "https://api.sendwithus.com/api/v1".
Definition apiHeaderClient : string := "golang-0.0.1".

(** SWUVersion describes a SendWithUs version. *)
Record SWUVersion : Type := {
  Version_Name : string;   (* json:name,omitempty *)
  Version_ID : string;   (* json:id,omitempty *)
  Version_Created : Z;   (* json:created,omitempty *)
  Version_HTML : string;   (* json:html,omitempty *)
  Version_Text : string;   (* json:text,omitempty *)
  Version_Subject : string;   (* json:subject,omitempty *)
  Version_Published : bool   (* json:published,omitempty *)
}.

(** SWUTemplate describes a SendWithUs template. *)
Record SWUTemplate : Type := {
  Template_ID : string;   (* json:id,omitempty *)
  Template_Tags : list string;   (* json:tags,omitempty *)
  Template_Created : Z;   (* json:created,omitempty *)
  Template_Versions : list (option SWUVersion);   (* json:versions,omitempty *)
  Template_Name : string   (* json:name,omitempty *)
}.

(** SWURecipient describes a SendWithUs recipient. *)
Record SWURecipient : Type := {
  Recipient_Address : string;   (* json:address,omitempty *)
  Recipient_Name : string   (* json:name,omitempty *)
}.

(** SWUSender describes a SendWithUs sender; it embeds [SWURecipient]. *)
Record SWUSender : Type := {
  Sender_SWURecipient : SWURecipient;   (* embedded *)
  Sender_ReplyTo : string   (* json:reply_to,omitempty *)
}.

(** SWUAttachment describes a SendWithUs attachment. *)
Record SWUAttachment : Type := {
  Attachment_ID : string;   (* json:id,omitempty *)
  Attachment_Data : string   (* json:data,omitempty *)
}.

(** SWUEmail describes a SendWithUs email. *)
Record SWUEmail : Type := {
  Email_ID : string;   (* json:email_id,omitempty *)
  Email_Recipient : option SWURecipient;   (* json:recipient,omitempty *)
  Email_CC : list (option SWURecipient);   (* json:cc,omitempty *)
  Email_BCC : list (option SWURecipient);   (* json:bcc,omitempty *)
  Email_Sender : option SWUSender;   (* json:sender,omitempty *)
  Email_EmailData : gmap string string;   (* json:email_data,omitempty *)
  Email_Headers : gmap string string;   (* json:headers,omitempty *)
  Email_Tags : list string;   (* json:tags,omitempty *)
  Email_Inline : option SWUAttachment;   (* json:inline,omitempty *)
  Email_Files : list (option SWUAttachment);   (* json:files,omitempty *)
  Email_ESPAccount : string;   (* json:esp_account,omitempty *)
  Email_VersionName : string   (* json:version_name,omitempty *)
}.

(** SWUDripCampaign describes a SendWithUs drip campaign. *)
Record SWUDripCampaign : Type := {
  Drip_Recipient : option SWURecipient;   (* json:recipient,omitempty *)
  Drip_CC : list (option SWURecipient);   (* json:cc,omitempty *)
  Drip_BCC : list (option SWURecipient);   (* json:bcc,omitempty *)
  Drip_Sender : option SWUSender;   (* json:sender,omitempty *)
  Drip_EmailData : gmap string string;   (* json:email_data,omitempty *)
  Drip_Headers : gmap string string;   (* json:headers,omitempty *)
  Drip_Tags : list string;   (* json:tags,omitempty *)
  Drip_ESPAccount : string;   (* json:esp_account,omitempty *)
  Drip_Locale : string   (* json:locale,omitempty *)
}.

(** SWULogEvent describes a SendWithUs log event. *)
Record SWULogEvent : Type := {
  LogEvent_Object : string;   (* json:object,omitempty *)
  LogEvent_Created : Z;   (* json:created,omitempty *)
  LogEvent_Type : string;   (* json:type,omitempty *)
  LogEvent_Message : string   (* json:message,omitempty *)
}.

(** SWULog describes a SendWithUs log; it embeds [SWULogEvent]. *)
Record SWULog : Type := {
  Log_SWULogEvent : SWULogEvent;   (* embedded *)
  Log_ID : string;   (* json:id,omitempty *)
  Log_RecipientName : string;   (* json:recipient_name,omitempty *)
  Log_RecipientAddress : string;   (* json:recipient_address,omitempty *)
  Log_Status : string;   (* json:status,omitempty *)
  Log_EmailID : string;   (* json:email_id,omitempty *)
  Log_EmailName : string;   (* json:email_name,omitempty *)
  Log_EmailVersion : string;   (* json:email_version,omitempty *)
  Log_EventsURL : string   (* json:events_url,omitempty *)
}.

(** The anonymous struct of the [Email] field of [SWULogResend]. *)
Record SWULogResendEmail : Type := {
  ResendEmail_Name : string;   (* json:name *)
  ResendEmail_VersionName : string   (* json:version_name *)
}.

(** SWULogResend describes a SendWithUs log resend. *)
Record SWULogResend : Type := {
  Resend_Success : bool;   (* json:success,omitempty *)
  Resend_Status : string;   (* json:status,omitempty *)
  Resend_ID : string;   (* json:log_id,omitempty *)
  Resend_Email : SWULogResendEmail   (* json:email *)
}.

Definition set_Version_Name (a : string) (s : SWUVersion) : SWUVersion :=
  {| Version_Name := a; Version_ID := Version_ID s; Version_Created := Version_Created s; Version_HTML := Version_HTML s; Version_Text := Version_Text s; Version_Subject := Version_Subject s; Version_Published := Version_Published s |}.
Definition set_Version_ID (a : string) (s : SWUVersion) : SWUVersion :=
  {| Version_Name := Version_Name s; Version_ID := a; Version_Created := Version_Created s; Version_HTML := Version_HTML s; Version_Text := Version_Text s; Version_Subject := Version_Subject s; Version_Published := Version_Published s |}.
Definition set_Version_Created (a : Z) (s : SWUVersion) : SWUVersion :=
  {| Version_Name := Version_Name s; Version_ID := Version_ID s; Version_Created := a; Version_HTML := Version_HTML s; Version_Text := Version_Text s; Version_Subject := Version_Subject s; Version_Published := Version_Published s |}.
Definition set_Version_HTML (a : string) (s : SWUVersion) : SWUVersion :=
  {| Version_Name := Version_Name s; Version_ID := Version_ID s; Version_Created := Version_Created s; Version_HTML := a; Version_Text := Version_Text s; Version_Subject := Version_Subject s; Version_Published := Version_Published s |}.
Definition set_Version_Text (a : string) (s : SWUVersion) : SWUVersion :=
  {| Version_Name := Version_Name s; Version_ID := Version_ID s; Version_Created := Version_Created s; Version_HTML := Version_HTML s; Version_Text := a; Version_Subject := Version_Subject s; Version_Published := Version_Published s |}.
Definition set_Version_Subject (a : string) (s : SWUVersion) : SWUVersion :=
  {| Version_Name := Version_Name s; Version_ID := Version_ID s; Version_Created := Version_Created s; Version_HTML := Version_HTML s; Version_Text := Version_Text s; Version_Subject := a; Version_Published := Version_Published s |}.
Definition set_Version_Published (a : bool) (s : SWUVersion) : SWUVersion :=
  {| Version_Name := Version_Name s; Version_ID := Version_ID s; Version_Created := Version_Created s; Version_HTML := Version_HTML s; Version_Text := Version_Text s; Version_Subject := Version_Subject s; Version_Published := a |}.

Definition set_Template_ID (a : string) (s : SWUTemplate) : SWUTemplate :=
  {| Template_ID := a; Template_Tags := Template_Tags s; Template_Created := Template_Created s; Template_Versions := Template_Versions s; Template_Name := Template_Name s |}.
Definition set_Template_Tags (a : list string) (s : SWUTemplate) : SWUTemplate :=
  {| Template_ID := Template_ID s; Template_Tags := a; Template_Created := Template_Created s; Template_Versions := Template_Versions s; Template_Name := Template_Name s |}.
Definition set_Template_Created (a : Z) (s : SWUTemplate) : SWUTemplate :=
  {| Template_ID := Template_ID s; Template_Tags := Template_Tags s; Template_Created := a; Template_Versions := Template_Versions s; Template_Name := Template_Name s |}.
Definition set_Template_Versions (a : list (option SWUVersion)) (s : SWUTemplate) : SWUTemplate :=
  {| Template_ID := Template_ID s; Template_Tags := Template_Tags s; Template_Created := Template_Created s; Template_Versions := a; Template_Name := Template_Name s |}.
Definition set_Template_Name (a : string) (s : SWUTemplate) : SWUTemplate :=
  {| Template_ID := Template_ID s; Template_Tags := Template_Tags s; Template_Created := Template_Created s; Template_Versions := Template_Versions s; Template_Name := a |}.

Definition set_LogEvent_Object (a : string) (s : SWULogEvent) : SWULogEvent :=
  {| LogEvent_Object := a; LogEvent_Created := LogEvent_Created s; LogEvent_Type := LogEvent_Type s; LogEvent_Message := LogEvent_Message s |}.
Definition set_LogEvent_Created (a : Z) (s : SWULogEvent) : SWULogEvent :=
  {| LogEvent_Object := LogEvent_Object s; LogEvent_Created := a; LogEvent_Type := LogEvent_Type s; LogEvent_Message := LogEvent_Message s |}.
Definition set_LogEvent_Type (a : string) (s : SWULogEvent) : SWULogEvent :=
  {| LogEvent_Object := LogEvent_Object s; LogEvent_Created := LogEvent_Created s; LogEvent_Type := a; LogEvent_Message := LogEvent_Message s |}.
Definition set_LogEvent_Message (a : string) (s : SWULogEvent) : SWULogEvent :=
  {| LogEvent_Object := LogEvent_Object s; LogEvent_Created := LogEvent_Created s; LogEvent_Type := LogEvent_Type s; LogEvent_Message := a |}.

Definition set_Log_SWULogEvent (a : SWULogEvent) (s : SWULog) : SWULog :=
  {| Log_SWULogEvent := a; Log_ID := Log_ID s; Log_RecipientName := Log_RecipientName s; Log_RecipientAddress := Log_RecipientAddress s; Log_Status := Log_Status s; Log_EmailID := Log_EmailID s; Log_EmailName := Log_EmailName s; Log_EmailVersion := Log_EmailVersion s; Log_EventsURL := Log_EventsURL s |}.
Definition set_Log_ID (a : string) (s : SWULog) : SWULog :=
  {| Log_SWULogEvent := Log_SWULogEvent s; Log_ID := a; Log_RecipientName := Log_RecipientName s; Log_RecipientAddress := Log_RecipientAddress s; Log_Status := Log_Status s; Log_EmailID := Log_EmailID s; Log_EmailName := Log_EmailName s; Log_EmailVersion := Log_EmailVersion s; Log_EventsURL := Log_EventsURL s |}.
Definition set_Log_RecipientName (a : string) (s : SWULog) : SWULog :=
  {| Log_SWULogEvent := Log_SWULogEvent s; Log_ID := Log_ID s; Log_RecipientName := a; Log_RecipientAddress := Log_RecipientAddress s; Log_Status := Log_Status s; Log_EmailID := Log_EmailID s; Log_EmailName := Log_EmailName s; Log_EmailVersion := Log_EmailVersion s; Log_EventsURL := Log_EventsURL s |}.
Definition set_Log_RecipientAddress (a : string) (s : SWULog) : SWULog :=
  {| Log_SWULogEvent := Log_SWULogEvent s; Log_ID := Log_ID s; Log_RecipientName := Log_RecipientName s; Log_RecipientAddress := a; Log_Status := Log_Status s; Log_EmailID := Log_EmailID s; Log_EmailName := Log_EmailName s; Log_EmailVersion := Log_EmailVersion s; Log_EventsURL := Log_EventsURL s |}.
Definition set_Log_Status (a : string) (s : SWULog) : SWULog :=
  {| Log_SWULogEvent := Log_SWULogEvent s; Log_ID := Log_ID s; Log_RecipientName := Log_RecipientName s; Log_RecipientAddress := Log_RecipientAddress s; Log_Status := a; Log_EmailID := Log_EmailID s; Log_EmailName := Log_EmailName s; Log_EmailVersion := Log_EmailVersion s; Log_EventsURL := Log_EventsURL s |}.
Definition set_Log_EmailID (a : string) (s : SWULog) : SWULog :=
  {| Log_SWULogEvent := Log_SWULogEvent s; Log_ID := Log_ID s; Log_RecipientName := Log_RecipientName s; Log_RecipientAddress := Log_RecipientAddress s; Log_Status := Log_Status s; Log_EmailID := a; Log_EmailName := Log_EmailName s; Log_EmailVersion := Log_EmailVersion s; Log_EventsURL := Log_EventsURL s |}.
Definition set_Log_EmailName (a : string) (s : SWULog) : SWULog :=
  {| Log_SWULogEvent := Log_SWULogEvent s; Log_ID := Log_ID s; Log_RecipientName := Log_RecipientName s; Log_RecipientAddress := Log_RecipientAddress s; Log_Status := Log_Status s; Log_EmailID := Log_EmailID s; Log_EmailName := a; Log_EmailVersion := Log_EmailVersion s; Log_EventsURL := Log_EventsURL s |}.
Definition set_Log_EmailVersion (a : string) (s : SWULog) : SWULog :=
  {| Log_SWULogEvent := Log_SWULogEvent s; Log_ID := Log_ID s; Log_RecipientName := Log_RecipientName s; Log_RecipientAddress := Log_RecipientAddress s; Log_Status := Log_Status s; Log_EmailID := Log_EmailID s; Log_EmailName := Log_EmailName s; Log_EmailVersion := a; Log_EventsURL := Log_EventsURL s |}.
Definition set_Log_EventsURL (a : string) (s : SWULog) : SWULog :=
  {| Log_SWULogEvent := Log_SWULogEvent s; Log_ID := Log_ID s; Log_RecipientName := Log_RecipientName s; Log_RecipientAddress := Log_RecipientAddress s; Log_Status := Log_Status s; Log_EmailID := Log_EmailID s; Log_EmailName := Log_EmailName s; Log_EmailVersion := Log_EmailVersion s; Log_EventsURL := a |}.

Definition set_ResendEmail_Name (a : string) (s : SWULogResendEmail) : SWULogResendEmail :=
  {| ResendEmail_Name := a; ResendEmail_VersionName := ResendEmail_VersionName s |}.
Definition set_ResendEmail_VersionName (a : string) (s : SWULogResendEmail) : SWULogResendEmail :=
  {| ResendEmail_Name := ResendEmail_Name s; ResendEmail_VersionName := a |}.

Definition set_Resend_Success (a : bool) (s : SWULogResend) : SWULogResend :=
  {| Resend_Success := a; Resend_Status := Resend_Status s; Resend_ID := Resend_ID s; Resend_Email := Resend_Email s |}.
Definition set_Resend_Status (a : string) (s : SWULogResend) : SWULogResend :=
  {| Resend_Success := Resend_Success s; Resend_Status := a; Resend_ID := Resend_ID s; Resend_Email := Resend_Email s |}.
Definition set_Resend_ID (a : string) (s : SWULogResend) : SWULogResend :=
  {| Resend_Success := Resend_Success s; Resend_Status := Resend_Status s; Resend_ID := a; Resend_Email := Resend_Email s |}.
Definition set_Resend_Email (a : SWULogResendEmail) (s : SWULogResend) : SWULogResend :=
  {| Resend_Success := Resend_Success s; Resend_Status := Resend_Status s; Resend_ID := Resend_ID s; Resend_Email := a |}.

Definition SWUVersion_fields : list (Field SWUVersion) :=
  [ field "name" Version_Name set_Version_Name;
    field "id" Version_ID set_Version_ID;
    field "created" Version_Created set_Version_Created;
    field "html" Version_HTML set_Version_HTML;
    field "text" Version_Text set_Version_Text;
    field "subject" Version_Subject set_Version_Subject;
    field "published" Version_Published set_Version_Published ].

#[export] Instance SWUVersion_unmarshaler : Unmarshaler SWUVersion := {|
  zero := {| Version_Name := zero; Version_ID := zero; Version_Created := zero; Version_HTML := zero; Version_Text := zero; Version_Subject := zero; Version_Published := zero |};
  decode := decode_struct SWUVersion_fields
|}.

Definition SWUTemplate_fields : list (Field SWUTemplate) :=
  [ field "id" Template_ID set_Template_ID;
    field "tags" Template_Tags set_Template_Tags;
    field "created" Template_Created set_Template_Created;
    field "versions" Template_Versions set_Template_Versions;
    field "name" Template_Name set_Template_Name ].

#[export] Instance SWUTemplate_unmarshaler : Unmarshaler SWUTemplate := {|
  zero := {| Template_ID := zero; Template_Tags := zero; Template_Created := zero; Template_Versions := zero; Template_Name := zero |};
  decode := decode_struct SWUTemplate_fields
|}.

Definition SWULogEvent_fields : list (Field SWULogEvent) :=
  [ field "object" LogEvent_Object set_LogEvent_Object;
    field "created" LogEvent_Created set_LogEvent_Created;
    field "type" LogEvent_Type set_LogEvent_Type;
    field "message" LogEvent_Message set_LogEvent_Message ].

#[export] Instance SWULogEvent_unmarshaler : Unmarshaler SWULogEvent := {|
  zero := {| LogEvent_Object := zero; LogEvent_Created := zero; LogEvent_Type := zero; LogEvent_Message := zero |};
  decode := decode_struct SWULogEvent_fields
|}.

Definition SWULog_fields : list (Field SWULog) :=
  [ field "object" (fun s => LogEvent_Object (Log_SWULogEvent s))
      (fun a s => set_Log_SWULogEvent (set_LogEvent_Object a (Log_SWULogEvent s)) s);
    field "created" (fun s => LogEvent_Created (Log_SWULogEvent s))
      (fun a s => set_Log_SWULogEvent (set_LogEvent_Created a (Log_SWULogEvent s)) s);
    field "type" (fun s => LogEvent_Type (Log_SWULogEvent s))
      (fun a s => set_Log_SWULogEvent (set_LogEvent_Type a (Log_SWULogEvent s)) s);
    field "message" (fun s => LogEvent_Message (Log_SWULogEvent s))
      (fun a s => set_Log_SWULogEvent (set_LogEvent_Message a (Log_SWULogEvent s)) s);
    field "id" Log_ID set_Log_ID;
    field "recipient_name" Log_RecipientName set_Log_RecipientName;
    field "recipient_address" Log_RecipientAddress set_Log_RecipientAddress;
    field "status" Log_Status set_Log_Status;
    field "email_id" Log_EmailID set_Log_EmailID;
    field "email_name" Log_EmailName set_Log_EmailName;
    field "email_version" Log_EmailVersion set_Log_EmailVersion;
    field "events_url" Log_EventsURL set_Log_EventsURL ].

#[export] Instance SWULog_unmarshaler : Unmarshaler SWULog := {|
  zero := {| Log_SWULogEvent := zero; Log_ID := zero; Log_RecipientName := zero; Log_RecipientAddress := zero; Log_Status := zero; Log_EmailID := zero; Log_EmailName := zero; Log_EmailVersion := zero; Log_EventsURL := zero |};
  decode := decode_struct SWULog_fields
|}.

Definition SWULogResendEmail_fields : list (Field SWULogResendEmail) :=
  [ field "name" ResendEmail_Name set_ResendEmail_Name;
    field "version_name" ResendEmail_VersionName set_ResendEmail_VersionName ].

#[export] Instance SWULogResendEmail_unmarshaler : Unmarshaler SWULogResendEmail := {|
  zero := {| ResendEmail_Name := zero; ResendEmail_VersionName := zero |};
  decode := decode_struct SWULogResendEmail_fields
|}.

Definition SWULogResend_fields : list (Field SWULogResend) :=
  [ field "success" Resend_Success set_Resend_Success;
    field "status" Resend_Status set_Resend_Status;
    field "log_id" Resend_ID set_Resend_ID;
    field "email" Resend_Email set_Resend_Email ].

#[export] Instance SWULogResend_unmarshaler : Unmarshaler SWULogResend := {|
  zero := {| Resend_Success := zero; Resend_Status := zero; Resend_ID := zero; Resend_Email := zero |};
  decode := decode_struct SWULogResend_fields
|}.

Definition SWUVersion_members (s : SWUVersion) : list (string * json) :=
  (member "name" true (Version_Name s)
   ++ member "id" true (Version_ID s)
   ++ member "created" true (Version_Created s)
   ++ member "html" true (Version_HTML s)
   ++ member "text" true (Version_Text s)
   ++ member "subject" true (Version_Subject s)
   ++ member "published" true (Version_Published s))%list.

#[export] Instance SWUVersion_marshaler : Marshaler SWUVersion := {|
  encode s := JObject (SWUVersion_members s);
  is_empty _ := false
|}.

Definition SWUTemplate_members (s : SWUTemplate) : list (string * json) :=
  (member "id" true (Template_ID s)
   ++ member "tags" true (Template_Tags s)
   ++ member "created" true (Template_Created s)
   ++ member "versions" true (Template_Versions s)
   ++ member "name" true (Template_Name s))%list.

#[export] Instance SWUTemplate_marshaler : Marshaler SWUTemplate := {|
  encode s := JObject (SWUTemplate_members s);
  is_empty _ := false
|}.

Definition SWURecipient_members (s : SWURecipient) : list (string * json) :=
  (member "address" true (Recipient_Address s)
   ++ member "name" true (Recipient_Name s))%list.

#[export] Instance SWURecipient_marshaler : Marshaler SWURecipient := {|
  encode s := JObject (SWURecipient_members s);
  is_empty _ := false
|}.

Definition SWUSender_members (s : SWUSender) : list (string * json) :=
  (member "address" true (Recipient_Address (Sender_SWURecipient s))
   ++ member "name" true (Recipient_Name (Sender_SWURecipient s))
   ++ member "reply_to" true (Sender_ReplyTo s))%list.

#[export] Instance SWUSender_marshaler : Marshaler SWUSender := {|
  encode s := JObject (SWUSender_members s);
  is_empty _ := false
|}.

Definition SWUAttachment_members (s : SWUAttachment) : list (string * json) :=
  (member "id" true (Attachment_ID s)
   ++ member "data" true (Attachment_Data s))%list.

#[export] Instance SWUAttachment_marshaler : Marshaler SWUAttachment := {|
  encode s := JObject (SWUAttachment_members s);
  is_empty _ := false
|}.

Definition SWUEmail_members (s : SWUEmail) : list (string * json) :=
  (member "email_id" true (Email_ID s)
   ++ member "recipient" true (Email_Recipient s)
   ++ member "cc" true (Email_CC s)
   ++ member "bcc" true (Email_BCC s)
   ++ member "sender" true (Email_Sender s)
   ++ member "email_data" true (Email_EmailData s)
   ++ member "headers" true (Email_Headers s)
   ++ member "tags" true (Email_Tags s)
   ++ member "inline" true (Email_Inline s)
   ++ member "files" true (Email_Files s)
   ++ member "esp_account" true (Email_ESPAccount s)
   ++ member "version_name" true (Email_VersionName s))%list.

#[export] Instance SWUEmail_marshaler : Marshaler SWUEmail := {|
  encode s := JObject (SWUEmail_members s);
  is_empty _ := false
|}.

Definition SWUDripCampaign_members (s : SWUDripCampaign) : list (string * json) :=
  (member "recipient" true (Drip_Recipient s)
   ++ member "cc" true (Drip_CC s)
   ++ member "bcc" true (Drip_BCC s)
   ++ member "sender" true (Drip_Sender s)
   ++ member "email_data" true (Drip_EmailData s)
   ++ member "headers" true (Drip_Headers s)
   ++ member "tags" true (Drip_Tags s)
   ++ member "esp_account" true (Drip_ESPAccount s)
   ++ member "locale" true (Drip_Locale s))%list.

#[export] Instance SWUDripCampaign_marshaler : Marshaler SWUDripCampaign := {|
  encode s := JObject (SWUDripCampaign_members s);
  is_empty _ := false
|}.

Definition SWULogResendEmail_members (s : SWULogResendEmail) : list (string * json) :=
  (member "name" false (ResendEmail_Name s)
   ++ member "version_name" false (ResendEmail_VersionName s))%list.

#[export] Instance SWULogResendEmail_marshaler : Marshaler SWULogResendEmail := {|
  encode s := JObject (SWULogResendEmail_members s);
  is_empty _ := false
|}.

Definition SWULogResend_members (s : SWULogResend) : list (string * json) :=
  (member "success" true (Resend_Success s)
   ++ member "status" true (Resend_Status s)
   ++ member "log_id" true (Resend_ID s)
   ++ member "email" false (Resend_Email s))%list.

#[export] Instance SWULogResend_marshaler : Marshaler SWULogResend := {|
  encode s := JObject (SWULogResend_members s);
  is_empty _ := false
|}.

(** SWULogQuery describes a SendWithUs log query.  Every field carries
    [url:"<name>,omitempty"]; [int] and [int64] are both integers here. *)
Record SWULogQuery : Type := {
  Query_Count : Z;        (* url:count,omitempty *)
  Query_Offset : Z;       (* url:offset,omitempty *)
  Query_CreatedGT : Z;    (* url:created_gt,omitempty *)
  Query_CreatedGTE : Z;   (* url:created_gte,omitempty *)
  Query_CreatedLT : Z;    (* url:created_lt,omitempty *)
  Query_CreatedLTE : Z    (* url:created_lte,omitempty *)
}.

(** [query.Values] of go-querystring on a [*SWULogQuery]: a nil pointer
    gives no values; an integer field is added in decimal unless it is 0. *)
Definition query_int (name : string) (z : Z) (v : NetURL.Values) : NetURL.Values :=
  if (z =? 0)%Z then v else NetURL.Add name (pretty z) v.

Definition query_Values (q : option SWULogQuery) : NetURL.Values :=
  match q with
  | None => ∅
  | Some q =>
      query_int "created_lte" (Query_CreatedLTE q)
        (query_int "created_lt" (Query_CreatedLT q)
           (query_int "created_gte" (Query_CreatedGTE q)
              (query_int "created_gt" (Query_CreatedGT q)
                 (query_int "offset" (Query_Offset q)
                    (query_int "count" (Query_Count q) ∅)))))
  end.

(** SWUError describes a SendWithUs error. *)
Record SWUError : Type := {
  Code : Z;
  Message : string
}.

(** ** HTTP (net/http) *)

Module HTTP.
Import Bytes.

(** An [*http.Request] as far as [makeRequest] builds it.  [BasicAuth] is
    what [Request.BasicAuth] reads back from the Authorization header. *)
Record Request : Type := {
  Method : string;
  RequestURL : string;
  RequestBody : option string;
  BasicAuth : option (string * string);
  Header : list (string * string)
}.

(** What [ioutil.ReadAll] makes of a response body. *)
Inductive ReadResult : Type :=
| ReadOK (b : string)
| ReadFailed (err : string).

Record Response : Type := {
  StatusCode : Z;
  Body : ReadResult
}.

(** The two results of [Client.Do]: a response and no error, or an error.
    With an error the response is nil, except when the client gave up on
    a redirect, where [Do] returns the last response as well. *)
Inductive DoResult : Type :=
| Responded (res : Response)
| Failed (res : option Response) (err : string).

Definition is_token (c : ascii) : bool :=
  NetURL.is_alnum c ||
  existsb (Ascii.eqb c)
    ["!"; "#"; "$"; "%"; "&"; "'"; "*"; "+"; "-"; "."; "^"; "_"; "`"; "|"; "~"]%char.

Fixpoint all_token (s : string) : bool :=
  match s with
  | EmptyString => true
  | String c rest => is_token c && all_token rest
  end.

(** [validMethod] *)
Definition validMethod (m : string) : bool :=
  negb (String.eqb m "") && all_token m.

Definition lower (c : ascii) : ascii :=
  if in_range 65 90 c then ascii_of_N (byte_val c + 32) else c.

Fixpoint canonical (up : bool) (s : string) : string :=
  match s with
  | EmptyString => ""
  | String c rest =>
      String (if up then JSON.upper c else lower c)
             (canonical (Ascii.eqb c "-"%char) rest)
  end.

(** [textproto.CanonicalMIMEHeaderKey] *)
Definition CanonicalMIMEHeaderKey (k : string) : string :=
  if all_token k then canonical true k else k.

(** [Header.Set] *)
Definition Header_Set (key value : string) (r : Request) : Request :=
  let k := CanonicalMIMEHeaderKey key in
  {| Method := Method r; RequestURL := RequestURL r; RequestBody := RequestBody r;
     BasicAuth := BasicAuth r;
     Header := (filter (fun kv => fst kv <> k) (Header r) ++ [(k, value)])%list |}.

(** [Request.SetBasicAuth] *)
Definition SetBasicAuth (username password : string) (r : Request) : Request :=
  {| Method := Method r; RequestURL := RequestURL r; RequestBody := RequestBody r;
     BasicAuth := Some (username, password);
     Header := Header r |}.

End HTTP.

Import HTTP.

(** ** Errors *)

(** The values of Go's [error] interface that reach a caller of [swu.go]. *)
Inductive error : Type :=
| ErrSWU (e : SWUError)            (* a [*SWUError] *)
| ErrJSON (e : json_error)         (* from encoding/json *)
| ErrMethod (method : string)      (* from [http.NewRequest]: invalid method *)
| ErrURL (msg : string)            (* from [http.NewRequest]: [url.Parse] failed *)
| Wrapped (e : error).             (* [errors.Wrap] of another error *)

(** [errors.Wrap] of the [errors] package the source imports: the error it
    is given, annotated.  The wrapped error stays its cause. *)
Definition errors_Wrap (e : error) : error := Wrapped e.

Fixpoint Cause (e : error) : error :=
  match e with
  | Wrapped e' => Cause e'
  | _ => e
  end.

Definition newSWUError (res : option Response) (message : string) : SWUError :=
  let s := {| Code := 0; Message := message |} in
  match res with
  | Some res => {| Code := StatusCode res; Message := Message s |}
  | None => s
  end.

(** ** The client *)

(** SWUClient implements a SendWithUs client.  [Client] is the behaviour of
    its [*http.Client]: what [Do] returns for a request. *)
Record SWUClient : Type := {
  Client : Request -> DoResult;
  apiKey : string;
  URL : string
}.

(** Error implements the error interface. *)
Definition SWUError_Error (e : SWUError) : string :=
  "swu.go: Status code: " +:+ pretty (Code e) +:+ ", Error: " +:+ Message e.

(** New initializes a new SWUClient; [DefaultClient] is the behaviour of
    [http.DefaultClient]. *)
Definition New (DefaultClient : Request -> DoResult) (apiKey : string) : SWUClient :=
  {| Client := DefaultClient; apiKey := apiKey; URL := swuEndpoint |}.

(** The [res] of [res, err := c.Client.Do(r)]: [None] is nil. *)
Definition response_of (d : DoResult) : option Response :=
  match d with
  | Responded res => Some res
  | Failed res _ => res
  end.

(** What a method returns: a value and a nil error, or nil and an error. *)
Inductive Result (A : Type) : Type :=
| Ok (a : A)
| Err (e : error).
Arguments Ok {A} a.
Arguments Err {A} e.

Definition err_of {A} (r : Result A) : option error :=
  match r with Ok _ => None | Err e => Some e end.

(** The network as the methods see it: the exchanges made so far, each the
    request handed to [Do] with what [Do] returned. *)
Definition Wire : Type := list (Request * DoResult).

Definition M (A : Type) : Type := Wire -> A * Wire.

Definition ret {A} (a : A) : M A := fun w => (a, w).

Definition bind {A B} (m : M A) (f : A -> M B) : M B :=
  fun w => let '(a, w') := m w in f a w'.

Notation "x <- m ;; k" := (bind m (fun x => k))
  (at level 100, m at next level, right associativity).

(** [c.Client.Do(r)] *)
Definition Do (c : SWUClient) (r : Request) : M DoResult :=
  fun w => (Client c r, (w ++ [(r, Client c r)])%list).

(** The variable a non-nil [result] points to, read back after the call. *)
Definition deref {A} (after : option A) (before : A) : A := default before after.

(** The type given to a nil [result], which is never stored into. *)
#[export] Instance no_sink : Unmarshaler unit := {|
  zero := tt;
  decode _ u := (u, None)
|}.

Section Methods.

(** [url.Parse], which decides whether [http.NewRequest] accepts a URL:
    [Some msg] is its error. *)
Variable url_Parse : string -> option string.

(** [http.NewRequest]; the empty method stands for GET. *)
Definition http_NewRequest (method url : string) (body : option string)
  : Request + error :=
  let method := if String.eqb method "" then "GET" else method in
  if negb (validMethod method) then inr (ErrMethod method)
  else match url_Parse url with
       | Some msg => inr (ErrURL msg)
       | None => inl {| Method := method; RequestURL := url; RequestBody := body;
                        BasicAuth := None; Header := [] |}
       end.

Definition buildRespJSON {A} `{Unmarshaler A} (b : string) (parse : A)
  : A * option error :=
  match Unmarshal b parse with
  | (parse', Some err) => (parse', Some (errors_Wrap (ErrJSON err)))
  | (parse', None) => (parse', None)
  end.

(** [makeRequest] returns its error together with the value [result]
    points to when the call is over ([None] for a nil [result]).  The
    deferred [res.Body.Close()] changes nothing of what is returned. *)
Definition makeRequest {A} `{Unmarshaler A} (c : SWUClient)
    (method endpoint : string) (body : option string) (result : option A)
  : M (option error * option A) :=
  match http_NewRequest method (URL c +:+ endpoint) body with
  | inr err => ret (Some (errors_Wrap err), result)
  | inl r =>
      let r := SetBasicAuth (apiKey c) "" r in
      let r := Header_Set "X-SWU-API-CLIENT" apiHeaderClient r in
      d <- Do c r ;;
      match d with
      | Failed res err =>
          ret (Some (errors_Wrap (ErrSWU (newSWUError res err))), result)
      | Responded res =>
          match Body res with
          | ReadFailed err =>
              ret (Some (errors_Wrap (ErrSWU (newSWUError (Some res) err))), result)
          | ReadOK b =>
              if (StatusCode res >=? 300)%Z then
                ret (Some (errors_Wrap (ErrSWU (newSWUError (Some res) b))), result)
              else
                match result with
                | Some parse =>
                    let '(parse', err) := buildRespJSON b parse in
                    ret (err, Some parse')
                | None => ret (None, None)
                end
          end
      end
  end.

(** A call with a result to fill: the error wrapped, or the result. *)
Definition returning {A} (parse : A) (r : option error * option A) : Result A :=
  match fst r with
  | Some err => Err (errors_Wrap err)
  | None => Ok (deref (snd r) parse)
  end.

(** Emails executes a SendWithUs api call. *)
Definition Emails (c : SWUClient) : M (Result (list (option SWUTemplate))) :=
  let parse : list (option SWUTemplate) := zero in
  r <- makeRequest c "GET" "/templates" None (Some parse) ;;
  ret (returning parse r).

(** Templates executes a SendWithUs api call. *)
Definition Templates (c : SWUClient) : M (Result (list (option SWUTemplate))) :=
  Emails c.

(** GetTemplate executes a SendWithUs api call. *)
Definition GetTemplate (c : SWUClient) (id : string) : M (Result SWUTemplate) :=
  let parse : SWUTemplate := zero in
  r <- makeRequest c "GET" ("/templates/" +:+ id) None (Some parse) ;;
  ret (returning parse r).

(** GetTemplateVersion executes a SendWithUs api call. *)
Definition GetTemplateVersion (c : SWUClient) (id version : string)
  : M (Result SWUVersion) :=
  let parse : SWUVersion := zero in
  r <- makeRequest c "GET" ("/templates/" +:+ id +:+ "/versions/" +:+ version)
         None (Some parse) ;;
  ret (returning parse r).

(** UpdateTemplateVersion executes a SendWithUs api call.  [json.Marshal]
    has no error on the records of this file, here and below. *)
Definition UpdateTemplateVersion (c : SWUClient) (id version : string)
    (template : option SWUVersion) : M (Result SWUVersion) :=
  let parse : SWUVersion := zero in
  let payload := Marshal template in
  r <- makeRequest c "PUT" ("/templates/" +:+ id +:+ "/versions/" +:+ version)
         (Some payload) (Some parse) ;;
  ret (returning parse r).

(** CreateTemplate executes a SendWithUs api call. *)
Definition CreateTemplate (c : SWUClient) (template : option SWUVersion)
  : M (Result SWUTemplate) :=
  let parse : SWUTemplate := zero in
  let payload := Marshal template in
  r <- makeRequest c "POST" "/templates" (Some payload) (Some parse) ;;
  ret (returning parse r).

(** CreateTemplateVersion executes a SendWithUs api call. *)
Definition CreateTemplateVersion (c : SWUClient) (id : string)
    (template : option SWUVersion) : M (Result SWUTemplate) :=
  let parse : SWUTemplate := zero in
  let payload := Marshal template in
  r <- makeRequest c "POST" ("/templates/" +:+ id +:+ "/versions")
         (Some payload) (Some parse) ;;
  ret (returning parse r).

(** A call with a nil [result]: the error wrapped, or nil. *)
Definition returning_error (r : option error * option unit) : option error :=
  match fst r with
  | Some err => Some (errors_Wrap err)
  | None => None
  end.

(** Send executes a SendWithUs api call. *)
Definition Send (c : SWUClient) (email : option SWUEmail) : M (option error) :=
  let payload := Marshal email in
  r <- makeRequest c "POST" "/send" (Some payload) (@None unit) ;;
  ret (returning_error r).

(** ActivateDripCampaign executes a SendWithUs api call. *)
Definition ActivateDripCampaign (c : SWUClient) (id : string)
    (dripCampaign : option SWUDripCampaign) : M (option error) :=
  let payload := Marshal dripCampaign in
  r <- makeRequest c "POST" ("/drip_campaigns/" +:+ id +:+ "/activate")
         (Some payload) (@None unit) ;;
  ret (returning_error r).

(** GetLogs executes a SendWithUs api call.  [query.Values] has no error
    on a [*SWULogQuery]. *)
Definition GetLogs (c : SWUClient) (q : option SWULogQuery)
  : M (Result (list (option SWULog))) :=
  let parse : list (option SWULog) := zero in
  let payload := query_Values q in
  r <- makeRequest c "GET" ("/logs?" +:+ NetURL.Encode payload) None (Some parse) ;;
  ret (returning parse r).

(** GetLog executes a SendWithUs api call. *)
Definition GetLog (c : SWUClient) (id : string) : M (Result SWULog) :=
  let parse : SWULog := zero in
  r <- makeRequest c "GET" ("/logs/" +:+ id) None (Some parse) ;;
  ret (returning parse r).

(** GetLogEvents executes a SendWithUs api call. *)
Definition GetLogEvents (c : SWUClient) (id : string) : M (Result SWULogEvent) :=
  let parse : SWULogEvent := zero in
  r <- makeRequest c "GET" ("/logs/" +:+ id +:+ "/events") None (Some parse) ;;
  ret (returning parse r).

(** ResendLog executes a SendWithUs api call. *)
Definition ResendLog (c : SWUClient) (id : string) : M (Result SWULogResend) :=
  let parse : SWULogResend :=
    {| Resend_Success := zero; Resend_Status := zero; Resend_ID := id;
       Resend_Email := zero |} in
  let payload := Marshal (Some parse) in
  r <- makeRequest c "POST" "/resend" (Some payload) (Some parse) ;;
  ret (returning parse r).

(** *** Every method as one call

    The thirteen exported methods, with their arguments, and the call
    of each. *)
Inductive Operation : Type :=
| OpTemplates
| OpEmails
| OpGetTemplate (id : string)
| OpGetTemplateVersion (id version : string)
| OpUpdateTemplateVersion (id version : string) (template : option SWUVersion)
| OpCreateTemplate (template : option SWUVersion)
| OpCreateTemplateVersion (id : string) (template : option SWUVersion)
| OpSend (email : option SWUEmail)
| OpActivateDripCampaign (id : string) (dripCampaign : option SWUDripCampaign)
| OpGetLogs (q : option SWULogQuery)
| OpGetLog (id : string)
| OpGetLogEvents (id : string)
| OpResendLog (id : string).

Definition ResultOf (op : Operation) : Type :=
  match op with
  | OpTemplates | OpEmails => list (option SWUTemplate)
  | OpGetTemplate _ | OpCreateTemplate _ | OpCreateTemplateVersion _ _ => SWUTemplate
  | OpGetTemplateVersion _ _ | OpUpdateTemplateVersion _ _ _ => SWUVersion
  | OpSend _ | OpActivateDripCampaign _ _ => unit
  | OpGetLogs _ => list (option SWULog)
  | OpGetLog _ => SWULog
  | OpGetLogEvents _ => SWULogEvent
  | OpResendLog _ => SWULogResend
  end.

(** A method that returns only an error, as a [Result]. *)
Definition only_error (m : M (option error)) : M (Result unit) :=
  e <- m ;; ret (match e with Some e => Err e | None => Ok tt end).

Definition run (c : SWUClient) (op : Operation) : M (Result (ResultOf op)) :=
  match op return M (Result (ResultOf op)) with
  | OpTemplates => Templates c
  | OpEmails => Emails c
  | OpGetTemplate id => GetTemplate c id
  | OpGetTemplateVersion id version => GetTemplateVersion c id version
  | OpUpdateTemplateVersion id version template =>
      UpdateTemplateVersion c id version template
  | OpCreateTemplate template => CreateTemplate c template
  | OpCreateTemplateVersion id template => CreateTemplateVersion c id template
  | OpSend email => only_error (Send c email)
  | OpActivateDripCampaign id dripCampaign =>
      only_error (ActivateDripCampaign c id dripCampaign)
  | OpGetLogs q => GetLogs c q
  | OpGetLog id => GetLog c id
  | OpGetLogEvents id => GetLogEvents c id
  | OpResendLog id => ResendLog c id
  end.

(** The error a call returns and the exchanges it leaves on the wire. *)
Definition failure (c : SWUClient) (op : Operation) (w : Wire) : option error :=
  err_of (fst (run c op w)).

Definition wire_after (c : SWUClient) (op : Operation) (w : Wire) : Wire :=
  snd (run c op w).

End Methods.

(** ** Requests, texts and stubs the properties speak of *)

(** The request [makeRequest] hands to [Do]: the method, the client's URL
    followed by the endpoint, the body, the API key as the user name of
    Basic authentication with an empty password, and the one fixed header. *)
Definition request_to (c : SWUClient) (method endpoint : string)
    (body : option string) : Request :=
  {| Method := if String.eqb method "" then "GET" else method;
     RequestURL := URL c +:+ endpoint;
     RequestBody := body;
     BasicAuth := Some (apiKey c, "");
     Header := [("X-Swu-Api-Client", apiHeaderClient)] |}.

(** The errors of [http.NewRequest]: no request was built. *)
Definition request_error (e : error) : Prop :=
  match e with
  | ErrMethod _ | ErrURL _ => True
  | _ => False
  end.

(** [s] between quotes, for writing JSON texts down. *)
Definition quoted (s : string) : string :=
  String Bytes.dquote s +:+ String Bytes.dquote "".

(** The response body [{"success":true,"status":"queued"}]. *)
Definition queued_body : string :=
  "{" +:+ quoted "success" +:+ ":true," +:+ quoted "status" +:+ ":"
      +:+ quoted "queued" +:+ "}".

(** The [email] member of every resend request: the [Email] struct of
    [SWULogResend] has no [omitempty] and is written with its empty fields. *)
Definition empty_email : string * json :=
  ("email", JObject [("name", JString ""); ("version_name", JString "")]).

(** The query of the example: ten logs created after time 1000. *)
Definition ten_after_1000 : SWULogQuery :=
  {| Query_Count := 10; Query_Offset := 0; Query_CreatedGT := 1000;
     Query_CreatedGTE := 0; Query_CreatedLT := 0; Query_CreatedLTE := 0 |}.

(** A [url.Parse] that accepts every URL. *)
Definition accept_all : string -> option string := fun _ => None.

(** A client whose transport gives the same answer to every request. *)
Definition stub (d : DoResult) : SWUClient := New (fun _ => d) "key".

Definition moved : Response := {| StatusCode := 301; Body := ReadOK "" |}.
Definition maintenance : Response :=
  {| StatusCode := 200; Body := ReadOK "<html>maintenance</html>" |}.
Definition accepted : Response := {| StatusCode := 200; Body := ReadOK "" |}.
Definition queued : Response := {| StatusCode := 200; Body := ReadOK queued_body |}.
Definition cut_short : Response :=
  {| StatusCode := 502; Body := ReadFailed "unexpected EOF" |}.

(** A response with the status code 0 (the status line [HTTP/1.1 000], or
    a transport of the caller's own) whose body cannot be read. *)
Definition no_status : Response :=
  {| StatusCode := 0; Body := ReadFailed "unexpected EOF" |}.

(** An email with only its recipient set. *)
Definition minimal_email : SWUEmail :=
  {| Email_ID := ""; 
     Email_Recipient := Some {| Recipient_Address := "a@example.com"; Recipient_Name := "" |};
     Email_CC := []; Email_BCC := []; Email_Sender := None; Email_EmailData := ∅;
     Email_Headers := ∅; Email_Tags := []; Email_Inline := None; Email_Files := [];
     Email_ESPAccount := ""; Email_VersionName := "" |}.

(** ** The methods as a table

    What each method asks of [makeRequest], read off its body: the HTTP
    method, the endpoint, the body, and the variable the response is
    decoded into. *)
Definition method_of (op : Operation) : string :=
  match op with
  | OpTemplates | OpEmails | OpGetTemplate _ | OpGetTemplateVersion _ _
  | OpGetLogs _ | OpGetLog _ | OpGetLogEvents _ => "GET"
  | OpUpdateTemplateVersion _ _ _ => "PUT"
  | OpCreateTemplate _ | OpCreateTemplateVersion _ _ | OpSend _
  | OpActivateDripCampaign _ _ | OpResendLog _ => "POST"
  end.

Definition endpoint_of (op : Operation) : string :=
  match op with
  | OpTemplates | OpEmails | OpCreateTemplate _ => "/templates"
  | OpGetTemplate id => "/templates/" +:+ id
  | OpGetTemplateVersion id version | OpUpdateTemplateVersion id version _ =>
      "/templates/" +:+ id +:+ "/versions/" +:+ version
  | OpCreateTemplateVersion id _ => "/templates/" +:+ id +:+ "/versions"
  | OpSend _ => "/send"
  | OpActivateDripCampaign id _ => "/drip_campaigns/" +:+ id +:+ "/activate"
  | OpGetLogs q => "/logs?" +:+ NetURL.Encode (query_Values q)
  | OpGetLog id => "/logs/" +:+ id
  | OpGetLogEvents id => "/logs/" +:+ id +:+ "/events"
  | OpResendLog _ => "/resend"
  end.

(** The [SWULogResend] that [ResendLog] marshals and then decodes into. *)
Definition resend_of (id : string) : SWULogResend :=
  {| Resend_Success := zero; Resend_Status := zero; Resend_ID := id;
     Resend_Email := zero |}.

Definition body_of (op : Operation) : option string :=
  match op with
  | OpUpdateTemplateVersion _ _ template | OpCreateTemplate template
  | OpCreateTemplateVersion _ template => Some (Marshal template)
  | OpSend email => Some (Marshal email)
  | OpActivateDripCampaign _ dripCampaign => Some (Marshal dripCampaign)
  | OpResendLog id => Some (Marshal (Some (resend_of id)))
  | _ => None
  end.

(** [false] for the two methods that pass a nil [result]. *)
Definition has_result (op : Operation) : bool :=
  match op with
  | OpSend _ | OpActivateDripCampaign _ _ => false
  | _ => true
  end.

(** The variable [result] points to, as it is before the call. *)
Definition initial (op : Operation) : ResultOf op :=
  match op return ResultOf op with
  | OpTemplates | OpEmails => zero
  | OpGetTemplate _ | OpCreateTemplate _ | OpCreateTemplateVersion _ _ => zero
  | OpGetTemplateVersion _ _ | OpUpdateTemplateVersion _ _ _ => zero
  | OpSend _ | OpActivateDripCampaign _ _ => tt
  | OpGetLogs _ => zero
  | OpGetLog _ => zero
  | OpGetLogEvents _ => zero
  | OpResendLog id => resend_of id
  end.

Definition result_unmarshaler (op : Operation) : Unmarshaler (ResultOf op) :=
  match op return Unmarshaler (ResultOf op) with
  | OpTemplates | OpEmails => _
  | OpGetTemplate _ | OpCreateTemplate _ | OpCreateTemplateVersion _ _ => _
  | OpGetTemplateVersion _ _ | OpUpdateTemplateVersion _ _ _ => _
  | OpSend _ | OpActivateDripCampaign _ _ => no_sink
  | OpGetLogs _ => _
  | OpGetLog _ => _
  | OpGetLogEvents _ => _
  | OpResendLog _ => _
  end.

(** The two [errors.Wrap] layers of an error that comes out of a method. *)
Definition wrapped_twice (e : error) : error := Wrapped (Wrapped e).

(** What a method returns for what [Do] returned, as one function: the
    behaviour every method is compared with below. *)
Definition expected (op : Operation) (d : DoResult) : Result (ResultOf op) :=
  match d with
  | Failed res err => Err (wrapped_twice (ErrSWU (newSWUError res err)))
  | Responded res =>
      match Body res with
      | ReadFailed err => Err (wrapped_twice (ErrSWU (newSWUError (Some res) err)))
      | ReadOK b =>
          if (StatusCode res >=? 300)%Z
          then Err (wrapped_twice (ErrSWU (newSWUError (Some res) b)))
          else if has_result op then
            match @Unmarshal _ (result_unmarshaler op) b (initial op) with
            | (_, Some je) => Err (wrapped_twice (ErrJSON je))
            | (parse, None) => Ok parse
            end
          else Ok (initial op)
      end
  end.

(** The calls whose record argument is the nil pointer. *)
Definition nil_argument (op : Operation) : bool :=
  match op with
  | OpUpdateTemplateVersion _ _ None | OpCreateTemplate None
  | OpCreateTemplateVersion _ None | OpSend None
  | OpActivateDripCampaign _ None => true
  | _ => false
  end.

(** The filters of a query in the order of their names, and the query
    string that lists those that are not 0. *)
Definition query_filters (q : SWULogQuery) : list (string * Z) :=
  [ ("count", Query_Count q); ("created_gt", Query_CreatedGT q);
    ("created_gte", Query_CreatedGTE q); ("created_lt", Query_CreatedLT q);
    ("created_lte", Query_CreatedLTE q); ("offset", Query_Offset q) ].

Definition query_text (q : SWULogQuery) : string :=
  join "&" (map (fun kv => fst kv +:+ "=" +:+ pretty (snd kv))
              (List.filter (fun kv => negb (snd kv =? 0)%Z) (query_filters q))).

(** The values of Go's [int64]. *)
Definition int64 (z : Z) : Prop := (- 2 ^ 63 <= z < 2 ^ 63)%Z.

(** More stubs: a [url.Parse] that rejects every URL, the response a
    client is left with when it gives up on redirects, a response whose
    body is the JSON [null], and records to send. *)
Definition reject_all : string -> option string :=
  fun _ => Some "invalid URL escape".

Definition found_elsewhere : Response := {| StatusCode := 302; Body := ReadOK "" |}.
Definition null_response : Response := {| StatusCode := 200; Body := ReadOK "null" |}.

Definition first_version : SWUVersion :=
  {| Version_Name := "v1"; Version_ID := ""; Version_Created := 1400000000;
     Version_HTML := "<p>hello</p>"; Version_Text := ""; Version_Subject := "Hi";
     Version_Published := true |}.

Definition welcome_template : SWUTemplate :=
  {| Template_ID := "tem_1"; Template_Tags := ["a"; "b"]; Template_Created := -5;
     Template_Versions := [Some first_version; None]; Template_Name := "welcome" |}.

(** * Properties *)

Section Pipeline.

Variable url_Parse : string -> option string.

(** What [makeRequest] does, path by path: either no request could be
    built and nothing was sent, or exactly one request went to [Do] and
    the answer decided the result. *)
Lemma makeRequest_cases {A} `{Unmarshaler A} (c : SWUClient)
    (method endpoint : string) (body : option string) (result : option A)
    (w : Wire) :
  let out := makeRequest url_Parse c method endpoint body result w in
  (exists err, fst out = (Some (Wrapped err), result) /\ snd out = w /\
               request_error err) \/
  (exists r,
      snd out = (w ++ [(r, Client c r)])%list /\
      r = request_to c method endpoint body /\
      match Client c r with
      | Failed res err =>
          fst out = (Some (Wrapped (ErrSWU (newSWUError res err))), result)
      | Responded res =>
          match Body res with
          | ReadFailed err =>
              fst out = (Some (Wrapped (ErrSWU (newSWUError (Some res) err))), result)
          | ReadOK b =>
              if (StatusCode res >=? 300)%Z then
                fst out = (Some (Wrapped (ErrSWU (newSWUError (Some res) b))), result)
              else
                match result with
                | Some parse =>
                    fst out = (option_map (fun e => Wrapped (ErrJSON e))
                                          (snd (Unmarshal b parse)),
                               Some (fst (Unmarshal b parse)))
                | None => fst out = (None, None)
                end
          end
      end).
Proof.
  unfold makeRequest, http_NewRequest. cbv zeta.
  destruct (validMethod _); simpl.
  2:{ left. eexists. by repeat split. }
  destruct (url_Parse _) as [msg|]; simpl.
  { left. eexists. by repeat split. }
  right. unfold bind, Do, ret. simpl.
  change (Header_Set _ _ _) with (request_to c method endpoint body).
  set (r := request_to _ _ _ _). exists r.
  destruct (Client c r) as [res|res err]; simpl; [|by repeat split].
  destruct (Body res) as [b|err]; simpl; [|by repeat split].
  destruct (StatusCode res >=? 300)%Z; simpl; [by repeat split|].
  destruct result as [parse|]; simpl; [|by repeat split].
  unfold buildRespJSON.
  destruct (Unmarshal b parse) as [p [e|]]; by repeat split.
Qed.

(** The same for every method: its error is the error of [makeRequest]
    wrapped once more, and it leaves on the wire what [makeRequest] did. *)
Lemma run_cases (c : SWUClient) (op : Operation) (w : Wire) :
  (exists err, failure url_Parse c op w = Some (Wrapped (Wrapped err)) /\
               wire_after url_Parse c op w = w /\
               request_error err) \/
  (exists r,
      wire_after url_Parse c op w = (w ++ [(r, Client c r)])%list /\
      match Client c r with
      | Failed res err =>
          failure url_Parse c op w
          = Some (Wrapped (Wrapped (ErrSWU (newSWUError res err))))
      | Responded res =>
          match Body res with
          | ReadFailed err =>
              failure url_Parse c op w
              = Some (Wrapped (Wrapped (ErrSWU (newSWUError (Some res) err))))
          | ReadOK b =>
              if (StatusCode res >=? 300)%Z then
                failure url_Parse c op w
                = Some (Wrapped (Wrapped (ErrSWU (newSWUError (Some res) b))))
              else
                failure url_Parse c op w = None \/
                exists je, failure url_Parse c op w
                           = Some (Wrapped (Wrapped (ErrJSON je)))
          end
      end).
Proof.
  destruct op;
    unfold failure, wire_after, run, only_error, Templates, Emails, GetTemplate,
      GetTemplateVersion, UpdateTemplateVersion, CreateTemplate,
      CreateTemplateVersion, Send, ActivateDripCampaign, GetLogs, GetLog,
      GetLogEvents, ResendLog, returning, returning_error, bind, ret;
    match goal with
    | |- context [makeRequest ?u ?c ?m ?e ?b ?r ?w] =>
        pose proof (makeRequest_cases c m e b r w) as Hc; cbv zeta in Hc;
        destruct (makeRequest u c m e b r w) as [[e1 s1] w1]
    end;
    simpl in *;
    (destruct Hc as [(err & Hf & Hw & Hn)|(r & Hw & _ & Hm)];
     [ left; exists err; injection Hf as -> ->; subst w1; by repeat split
     | right; exists r; split; [exact Hw|];
       destruct (Client c r) as [res|res err];
       [ destruct (Body res) as [b|err];
         [ destruct (StatusCode res >=? 300)%Z;
           [ by injection Hm as -> ->
           | first [ injection Hm as -> -> | injection Hm as -> ];
             match goal with
             | |- context [Unmarshal ?b ?p] =>
                 destruct (snd (Unmarshal b p)) as [je|]; simpl;
                 [ right; by exists je | by left ]
             | _ => by left
             end ]
         | by injection Hm as -> -> ]
       | by injection Hm as -> -> ] ]).
Qed.

Lemma wire_unchanged (w : Wire) (x : Request * DoResult) :
  w = (w ++ [x])%list -> False.
Proof.
  intros E. apply (f_equal length) in E. rewrite length_app in E.
  simpl in E. lia.
Qed.

Lemma wire_last (w : Wire) (x y : Request * DoResult) :
  (w ++ [x])%list = (w ++ [y])%list -> x = y.
Proof. intros E. apply app_inv_head in E. by injection E. Qed.

(** The exchange a call has left on the wire is the one [run_cases]
    speaks of. *)
Ltac exchange c op w H :=
  let Hw := fresh "Hw" in
  let Hd := fresh "Hd" in
  destruct (run_cases c op w) as [(? & _ & Hw & _)|(? & Hw & Hm)];
  [ rewrite Hw in H; by destruct (wire_unchanged _ _ H)
  | rewrite Hw in H; apply wire_last in H; injection H as -> Hd;
    rewrite Hd in Hm ].

(** C3. For every method and every response whose status code is 300 or
    more (redirects included), the call fails; the cause of the error it
    returns is an [SWUError] whose code is the status code of the response
    and whose message is the body of the response as it was read, whatever
    the body holds (the empty body included). *)
Theorem status_ge_300_fails (c : SWUClient) (op : Operation) (w : Wire)
    (r : Request) (res : Response) (b : string) :
  wire_after url_Parse c op w = (w ++ [(r, Responded res)])%list ->
  Body res = ReadOK b ->
  (300 <= StatusCode res)%Z ->
  exists e, failure url_Parse c op w = Some e /\
            Cause e = ErrSWU {| Code := StatusCode res; Message := b |}.
Proof.
  intros H Hb Hs. exchange c op w H.
  rewrite Hb in Hm.
  destruct (Z.geb_spec (StatusCode res) 300) as [_|]; [|lia].
  eexists. split; [exact Hm|reflexivity].
Qed.

(** C4. For every method, when [Do] returns an error and no response, the
    call fails; the cause of the error it returns is an [SWUError] whose
    code is 0 and whose message is the text of the transport's error. *)
Theorem transport_failure_code_0 (c : SWUClient) (op : Operation) (w : Wire)
    (r : Request) (msg : string) :
  wire_after url_Parse c op w = (w ++ [(r, Failed None msg)])%list ->
  exists e, failure url_Parse c op w = Some e /\
            Cause e = ErrSWU {| Code := 0; Message := msg |}.
Proof.
  intros H. exchange c op w H.
  eexists. split; [exact Hm|reflexivity].
Qed.

(** C10. For every method, when a response was received and reading its
    body fails, the call fails; the cause of the error it returns is an
    [SWUError] whose code is the status code of the response, whatever
    that is, and whose message is the text of the read error.  The code of
    every [SWUError] a method returns is the status code of the response
    [Do] returned, and 0 when [Do] returned none: a code other than 0
    tells that a response was received, and code 0 tells that none was
    only with a transport whose responses never carry the status code 0. *)
Theorem read_failure_keeps_status (c : SWUClient) (op : Operation) (w : Wire) :
  (forall r res msg,
      wire_after url_Parse c op w = (w ++ [(r, Responded res)])%list ->
      Body res = ReadFailed msg ->
      exists e, failure url_Parse c op w = Some e /\
                Cause e = ErrSWU {| Code := StatusCode res; Message := msg |}) /\
  (forall e sw,
      failure url_Parse c op w = Some e ->
      Cause e = ErrSWU sw ->
      exists r d,
        wire_after url_Parse c op w = (w ++ [(r, d)])%list /\
        Code sw = match response_of d with
                  | Some res => StatusCode res
                  | None => 0%Z
                  end) /\
  ((forall r res, response_of (Client c r) = Some res -> StatusCode res <> 0%Z) ->
   forall e sw,
     failure url_Parse c op w = Some e ->
     Cause e = ErrSWU sw ->
     (Code sw = 0%Z <->
      exists r msg,
        wire_after url_Parse c op w = (w ++ [(r, Failed None msg)])%list)).
Proof.
  assert (Hlaw : forall e sw,
             failure url_Parse c op w = Some e ->
             Cause e = ErrSWU sw ->
             exists r,
               wire_after url_Parse c op w = (w ++ [(r, Client c r)])%list /\
               Code sw = match response_of (Client c r) with
                         | Some res => StatusCode res
                         | None => 0%Z
                         end).
  { intros e sw He Hc.
    destruct (run_cases c op w) as [(err & Hf & Hw & Hn)|(r & Hw & Hm)].
    { rewrite Hf in He. injection He as <-. simpl in Hc.
      destruct err; simpl in Hn, Hc; try done. }
    exists r. split; [exact Hw|].
    destruct (Client c r) as [res|[res|] err] eqn:Ed; cbn [response_of].
    - destruct (Body res) as [b|rerr].
      + destruct (StatusCode res >=? 300)%Z.
        * rewrite Hm in He. injection He as <-. simpl in Hc. by injection Hc as <-.
        * destruct Hm as [Hm|[je Hm]]; rewrite Hm in He; [done|].
          injection He as <-. simpl in Hc. done.
      + rewrite Hm in He. injection He as <-. simpl in Hc. by injection Hc as <-.
    - rewrite Hm in He. injection He as <-. simpl in Hc. by injection Hc as <-.
    - rewrite Hm in He. injection He as <-. simpl in Hc. by injection Hc as <-. }
  split; [|split].
  - intros r res msg H Hb.
    exchange c op w H. rewrite Hb in Hm.
    eexists. split; [exact Hm|reflexivity].
  - intros e sw He Hc.
    destruct (Hlaw e sw He Hc) as (r & Hw & Hcode). by exists r, (Client c r).
  - intros Hstatus e sw He Hc.
    destruct (Hlaw e sw He Hc) as (r & Hw & Hcode).
    rewrite Hw, Hcode.
    destruct (Client c r) as [res|[res|] err] eqn:Ed; cbn [response_of].
    + split.
      * intros E0. destruct (Hstatus r res); [by rewrite Ed|exact E0].
      * intros (r0 & msg & E). apply wire_last in E. by injection E.
    + split.
      * intros E0. destruct (Hstatus r res); [by rewrite Ed|exact E0].
      * intros (r0 & msg & E). apply wire_last in E. by injection E.
    + split; [|done]. intros _. by exists r, err.
Qed.

(** C7. [Send] and [ActivateDripCampaign] hand [makeRequest] a nil result:
    when the status code of the response is below 300 the call returns no
    error, whatever the body holds (the empty body included); the body is
    read and then dropped, it is not parsed. *)
Theorem no_sink_success (c : SWUClient) (w : Wire) (r : Request)
    (res : Response) (b : string) :
  Body res = ReadOK b ->
  (StatusCode res < 300)%Z ->
  (forall email,
      snd (Send url_Parse c email w) = (w ++ [(r, Responded res)])%list ->
      fst (Send url_Parse c email w) = None) /\
  (forall id dripCampaign,
      snd (ActivateDripCampaign url_Parse c id dripCampaign w)
      = (w ++ [(r, Responded res)])%list ->
      fst (ActivateDripCampaign url_Parse c id dripCampaign w) = None).
Proof.
  intros Hb Hs.
  assert (Hlt : (StatusCode res >=? 300)%Z = false) by lia.
  split; [intros email|intros id dripCampaign];
    unfold Send, ActivateDripCampaign, returning_error, bind, ret;
    match goal with
    | |- context [makeRequest ?u ?c ?m ?e ?b ?r ?w] =>
        pose proof (makeRequest_cases c m e b r w) as Hc; cbv zeta in Hc;
        destruct (makeRequest u c m e b r w) as [[e1 s1] w1]
    end;
    simpl in *; intros H;
    (destruct Hc as [(err & _ & Hw & _)|(r' & Hw & _ & Hm)];
     rewrite H in Hw; symmetry in Hw;
     [ by destruct (wire_unchanged _ _ Hw)
     | apply wire_last in Hw; injection Hw as -> Hd;
       rewrite Hd, Hb, Hlt in Hm; by injection Hm as -> ]).
Qed.

(** C9. [Templates] is [Emails]: for every client and every transport it
    does to the wire what [Emails] does and returns what [Emails] returns;
    the one request it can send is a GET, without a body, to the
    templates collection. *)
Theorem Templates_is_Emails (c : SWUClient) (w : Wire) :
  Templates url_Parse c w = Emails url_Parse c w /\
  (forall r d,
      snd (Templates url_Parse c w) = (w ++ [(r, d)])%list ->
      Method r = "GET" /\ RequestURL r = URL c +:+ "/templates" /\
      RequestBody r = None).
Proof.
  split; [reflexivity|].
  intros r d. unfold Templates, Emails, bind, ret.
  match goal with
  | |- context [makeRequest ?u ?c ?m ?e ?b ?r ?w] =>
      pose proof (makeRequest_cases c m e b r w) as Hc; cbv zeta in Hc;
      destruct (makeRequest u c m e b r w) as [[e1 s1] w1]
  end.
  simpl in *. intros H.
  destruct Hc as [(err & _ & Hw & _)|(r' & Hw & Hr & _)];
    rewrite H in Hw; symmetry in Hw.
  - by destruct (wire_unchanged _ _ Hw).
  - apply wire_last in Hw. injection Hw as -> _. by rewrite Hr.
Qed.

(** C2, as the code has it. For every call of [makeRequest] with a
    non-nil result, when the status code of the response is below 300 and
    the body does not decode into the result, the error returned is the
    decoder's own error, wrapped: it is not an [SWUError], and carries
    neither a status code nor a message field. *)
Theorem decode_failure_is_json_error {A} `{Unmarshaler A} (c : SWUClient)
    (method endpoint : string) (body : option string) (parse : A) (w : Wire)
    (r : Request) (res : Response) (b : string) (je : json_error) :
  snd (makeRequest url_Parse c method endpoint body (Some parse) w)
  = (w ++ [(r, Responded res)])%list ->
  Body res = ReadOK b ->
  (StatusCode res < 300)%Z ->
  snd (Unmarshal b parse) = Some je ->
  exists e,
    fst (fst (makeRequest url_Parse c method endpoint body (Some parse) w)) = Some e /\
    Cause e = ErrJSON je /\ (forall sw, Cause e <> ErrSWU sw).
Proof.
  intros Hw0 Hb Hs Hu.
  assert (Hlt : (StatusCode res >=? 300)%Z = false) by lia.
  pose proof (makeRequest_cases c method endpoint body (Some parse) w) as Hc.
  cbv zeta in Hc.
  destruct Hc as [(err & _ & Hw & _)|(r' & Hw & _ & Hm)];
    rewrite Hw in Hw0.
  - by destruct (wire_unchanged _ _ Hw0).
  - apply wire_last in Hw0. injection Hw0 as -> Hd.
    rewrite Hd, Hb, Hlt, Hu in Hm. rewrite Hm. simpl.
    eexists. split; [reflexivity|]. by split.
Qed.

End Pipeline.

(** ** The shapes of requests and results *)

Section Shapes.

Variable url_Parse : string -> option string.

(** The one request a method sends, read off the wire. *)
Ltac sent_request H :=
  match goal with
  | |- context [makeRequest ?u ?c ?m ?e ?b ?r ?w] =>
      let Hc := fresh "Hc" in
      pose proof (makeRequest_cases u c m e b r w) as Hc; cbv zeta in Hc;
      destruct (makeRequest u c m e b r w) as [[e1 s1] w1];
      simpl in *; intros H;
      destruct Hc as [(err & _ & Hw & _)|(r' & Hw & Hr & Hm)];
      rewrite H in Hw; symmetry in Hw;
      [ by destruct (wire_unchanged _ _ Hw)
      | apply wire_last in Hw; injection Hw as <- Hd ]
  end.

(** C1, as the code has it. For every log identifier [id], the request
    of [ResendLog id] is a POST to [/resend] whose body is the JSON text
    of the [SWULogResend] that has only [ID] set: the object with
    [log_id] (left out when [id] is empty) followed by [email], whose
    [name] and [version_name] are empty strings; [success] and [status]
    are left out. *)
Theorem ResendLog_body (c : SWUClient) (id : string) (w : Wire)
    (r : Request) (d : DoResult) :
  snd (ResendLog url_Parse c id w) = (w ++ [(r, d)])%list ->
  Method r = "POST" /\ RequestURL r = URL c +:+ "/resend" /\
  (id <> "" ->
   RequestBody r = Some (render (JObject [("log_id", JString id); empty_email]))) /\
  (id = "" -> RequestBody r = Some (render (JObject [empty_email]))).
Proof.
  unfold ResendLog, bind, ret. sent_request H. subst r'.
  repeat split.
  - intros Hid. simpl. unfold Marshal. do 2 f_equal. simpl.
    unfold SWULogResend_members, member. simpl.
    apply String.eqb_neq in Hid. by rewrite Hid.
  - intros ->. reflexivity.
Qed.

(** C5. [GetLogs] with Count 10, Offset 0 and CreatedGT 1000, the other
    fields 0, sends a GET whose query string is exactly
    [count=10&created_gt=1000]: the fields that are 0 are left out. *)
Theorem GetLogs_query (c : SWUClient) (w : Wire) (r : Request) (d : DoResult) :
  snd (GetLogs url_Parse c (Some ten_after_1000) w) = (w ++ [(r, d)])%list ->
  Method r = "GET" /\
  RequestURL r = URL c +:+ "/logs?" +:+ "count=10&created_gt=1000" /\
  NetURL.Encode (query_Values (Some ten_after_1000)) = "count=10&created_gt=1000".
Proof.
  assert (E : NetURL.Encode (query_Values (Some ten_after_1000))
              = "count=10&created_gt=1000") by (vm_compute; reflexivity).
  unfold GetLogs, bind, ret. rewrite E. sent_request H. subst r'.
  by repeat split.
Qed.

(** C6. For every log identifier [id], [ResendLog id] with a response
    below 300 whose body is [{"success":true,"status":"queued"}] returns
    a result whose [ID] is [id] (the body has no [log_id], so the
    identifier set before the call stays), whose [Success] is true and
    whose [Status] is ["queued"]. *)
Theorem ResendLog_result (c : SWUClient) (id : string) (w : Wire)
    (r : Request) (res : Response) :
  snd (ResendLog url_Parse c id w) = (w ++ [(r, Responded res)])%list ->
  Body res = ReadOK queued_body ->
  (StatusCode res < 300)%Z ->
  fst (ResendLog url_Parse c id w)
  = Ok {| Resend_Success := true; Resend_Status := "queued"; Resend_ID := id;
          Resend_Email := {| ResendEmail_Name := ""; ResendEmail_VersionName := "" |} |}.
Proof.
  unfold ResendLog, bind, ret. sent_request H. intros Hb Hs.
  assert (Hlt : (StatusCode res >=? 300)%Z = false) by lia.
  rewrite Hd, Hb, Hlt in Hm. injection Hm as -> ->.
  vm_compute. reflexivity.
Qed.

End Shapes.


(** ** Worked calls *)

Example queued_body_parses :
  parse queued_body = Some (JObject [("success", JBool true); ("status", JString "queued")]).
Proof. vm_compute. reflexivity. Qed.

Example resend_body_text :
  Marshal (Some {| Resend_Success := false; Resend_Status := ""; Resend_ID := "log123";
                   Resend_Email := zero |})
  = "{" +:+ quoted "log_id" +:+ ":" +:+ quoted "log123" +:+ "," +:+ quoted "email"
        +:+ ":{" +:+ quoted "name" +:+ ":" +:+ quoted "" +:+ "," +:+ quoted "version_name"
        +:+ ":" +:+ quoted "" +:+ "}}".
Proof. vm_compute. reflexivity. Qed.

Example minimal_email_text :
  Marshal (Some minimal_email)
  = "{" +:+ quoted "recipient" +:+ ":{" +:+ quoted "address" +:+ ":"
        +:+ quoted "a@example.com" +:+ "}}".
Proof. vm_compute. reflexivity. Qed.

(** C1 as the spec states it fails: the body of [ResendLog "log123"] is not
    the object with the single member [log_id]; it has [email] as well. *)
Lemma ResendLog_body_not_only_log_id :
  ~ (forall (url_Parse : string -> option string) (c : SWUClient) (id : string)
            (w : Wire) (r : Request) (d : DoResult),
        snd (ResendLog url_Parse c id w) = (w ++ [(r, d)])%list ->
        RequestBody r ≫= parse = Some (JObject [("log_id", JString id)])).
Proof.
  intros H.
  pose proof (H accept_all (stub (Responded queued)) "log123" [] _ _ eq_refl) as H'.
  vm_compute in H'. discriminate H'.
Qed.

Lemma ResendLog_body_witness :
  snd (ResendLog accept_all (stub (Responded queued)) "log123" [])
  = ([] ++ [(request_to (stub (Responded queued)) "POST" "/resend"
               (Some (render (JObject [("log_id", JString "log123"); empty_email]))),
             Responded queued)])%list /\
  "log123" <> "" /\
  RequestBody (request_to (stub (Responded queued)) "POST" "/resend"
                 (Some (render (JObject [("log_id", JString "log123"); empty_email]))))
  = Some (render (JObject [("log_id", JString "log123"); empty_email])).
Proof.
  assert (H1 : snd (ResendLog accept_all (stub (Responded queued)) "log123" [])
               = ([] ++ [(request_to (stub (Responded queued)) "POST" "/resend"
                            (Some (render (JObject [("log_id", JString "log123");
                                                    empty_email]))),
                          Responded queued)])%list)
    by (vm_compute; reflexivity).
  assert (H2 : "log123" <> "") by discriminate.
  exact (conj H1 (conj H2
    (proj1 (proj2 (proj2 (ResendLog_body accept_all _ _ _ _ _ H1))) H2))).
Defined.

(** C2 as the spec states it fails: [Emails] against a 200 whose body is
    not JSON returns the decoder's syntax error, wrapped, and no
    [SWUError]. *)
Lemma decode_failure_not_SWUError :
  ~ (forall (url_Parse : string -> option string) (c : SWUClient) (w : Wire)
            (r : Request) (res : Response) (b : string) (e : error),
        snd (Emails url_Parse c w) = (w ++ [(r, Responded res)])%list ->
        Body res = ReadOK b ->
        (StatusCode res < 300)%Z ->
        snd (Unmarshal b (zero : list (option SWUTemplate))) <> None ->
        fst (Emails url_Parse c w) = Err e ->
        exists sw, Cause e = ErrSWU sw).
Proof.
  intros H.
  destruct (H accept_all (stub (Responded maintenance)) [] _ maintenance _
              (Wrapped (Wrapped (ErrJSON SyntaxError))) eq_refl eq_refl)
    as [sw Hsw]; [reflexivity | vm_compute; discriminate | vm_compute; reflexivity |].
  simpl in Hsw. discriminate Hsw.
Qed.

Lemma decode_failure_is_json_error_witness :
  snd (makeRequest accept_all (stub (Responded maintenance)) "GET" "/templates" None
         (Some (zero : list (option SWUTemplate))) [])
  = ([] ++ [(request_to (stub (Responded maintenance)) "GET" "/templates" None,
             Responded maintenance)])%list /\
  Body maintenance = ReadOK "<html>maintenance</html>" /\
  (StatusCode maintenance < 300)%Z /\
  snd (Unmarshal "<html>maintenance</html>" (zero : list (option SWUTemplate)))
  = Some SyntaxError /\
  exists e,
    fst (fst (makeRequest accept_all (stub (Responded maintenance)) "GET" "/templates"
                None (Some (zero : list (option SWUTemplate))) [])) = Some e /\
    Cause e = ErrJSON SyntaxError /\ (forall sw, Cause e <> ErrSWU sw).
Proof.
  assert (H1 : snd (makeRequest accept_all (stub (Responded maintenance)) "GET"
                      "/templates" None (Some (zero : list (option SWUTemplate))) [])
               = ([] ++ [(request_to (stub (Responded maintenance)) "GET" "/templates"
                            None, Responded maintenance)])%list)
    by (vm_compute; reflexivity).
  assert (H3 : (StatusCode maintenance < 300)%Z) by (simpl; lia).
  assert (H4 : snd (Unmarshal "<html>maintenance</html>"
                      (zero : list (option SWUTemplate))) = Some SyntaxError)
    by (vm_compute; reflexivity).
  exact (conj H1 (conj eq_refl (conj H3 (conj H4
    (decode_failure_is_json_error accept_all _ _ _ _ _ _ _ _ _ _ H1 eq_refl H3 H4))))).
Defined.

Lemma status_ge_300_fails_witness :
  wire_after accept_all (stub (Responded moved)) (OpGetTemplate "t1") []
  = ([] ++ [(request_to (stub (Responded moved)) "GET" "/templates/t1" None,
             Responded moved)])%list /\
  Body moved = ReadOK "" /\
  (300 <= StatusCode moved)%Z /\
  exists e,
    failure accept_all (stub (Responded moved)) (OpGetTemplate "t1") [] = Some e /\
    Cause e = ErrSWU {| Code := 301; Message := "" |}.
Proof.
  assert (H1 : wire_after accept_all (stub (Responded moved)) (OpGetTemplate "t1") []
               = ([] ++ [(request_to (stub (Responded moved)) "GET" "/templates/t1"
                            None, Responded moved)])%list)
    by (vm_compute; reflexivity).
  assert (H3 : (300 <= StatusCode moved)%Z) by (simpl; lia).
  exact (conj H1 (conj eq_refl (conj H3
    (status_ge_300_fails accept_all _ _ _ _ _ _ H1 eq_refl H3)))).
Defined.

Lemma transport_failure_code_0_witness :
  wire_after accept_all (stub (Failed None "dial tcp: i/o timeout")) (OpGetLog "l1") []
  = ([] ++ [(request_to (stub (Failed None "dial tcp: i/o timeout")) "GET" "/logs/l1"
               None, Failed None "dial tcp: i/o timeout")])%list /\
  exists e,
    failure accept_all (stub (Failed None "dial tcp: i/o timeout")) (OpGetLog "l1") []
    = Some e /\
    Cause e = ErrSWU {| Code := 0; Message := "dial tcp: i/o timeout" |}.
Proof.
  assert (H1 : wire_after accept_all (stub (Failed None "dial tcp: i/o timeout"))
                 (OpGetLog "l1") []
               = ([] ++ [(request_to (stub (Failed None "dial tcp: i/o timeout")) "GET"
                            "/logs/l1" None,
                          Failed None "dial tcp: i/o timeout")])%list)
    by (vm_compute; reflexivity).
  exact (conj H1 (transport_failure_code_0 accept_all _ _ _ _ _ H1)).
Defined.

Lemma read_failure_keeps_status_witness :
  wire_after accept_all (stub (Responded cut_short)) OpEmails []
  = ([] ++ [(request_to (stub (Responded cut_short)) "GET" "/templates" None,
             Responded cut_short)])%list /\
  Body cut_short = ReadFailed "unexpected EOF" /\
  exists e,
    failure accept_all (stub (Responded cut_short)) OpEmails [] = Some e /\
    Cause e = ErrSWU {| Code := 502; Message := "unexpected EOF" |}.
Proof.
  assert (H1 : wire_after accept_all (stub (Responded cut_short)) OpEmails []
               = ([] ++ [(request_to (stub (Responded cut_short)) "GET" "/templates"
                            None, Responded cut_short)])%list)
    by (vm_compute; reflexivity).
  exact (conj H1 (conj eq_refl
    (proj1 (read_failure_keeps_status accept_all _ OpEmails []) _ _ _ H1 eq_refl))).
Defined.

(** C10 as the spec states it fails: a response whose status code is 0
    and whose body cannot be read gives an [SWUError] with code 0, although
    a response was received. *)
Lemma read_failure_code_0_with_response :
  ~ (forall (url_Parse : string -> option string) (c : SWUClient) (op : Operation)
            (w : Wire),
        (forall r res msg,
            wire_after url_Parse c op w = (w ++ [(r, Responded res)])%list ->
            Body res = ReadFailed msg ->
            exists e, failure url_Parse c op w = Some e /\
                      Cause e = ErrSWU {| Code := StatusCode res; Message := msg |} /\
                      StatusCode res <> 0%Z) /\
        (forall e sw,
            failure url_Parse c op w = Some e ->
            Cause e = ErrSWU sw ->
            (Code sw = 0%Z <->
             exists r msg,
               wire_after url_Parse c op w = (w ++ [(r, Failed None msg)])%list))).
Proof.
  intros H.
  destruct (H accept_all (stub (Responded no_status)) OpEmails []) as [_ H2].
  destruct (H2 (Wrapped (Wrapped (ErrSWU {| Code := 0; Message := "unexpected EOF" |})))
               {| Code := 0; Message := "unexpected EOF" |} eq_refl eq_refl)
    as [H0 _].
  destruct (H0 eq_refl) as (r & msg & E).
  vm_compute in E. discriminate E.
Qed.

Lemma GetLogs_query_witness :
  snd (GetLogs accept_all (stub (Responded accepted)) (Some ten_after_1000) [])
  = ([] ++ [(request_to (stub (Responded accepted)) "GET"
               "/logs?count=10&created_gt=1000" None, Responded accepted)])%list /\
  Method (request_to (stub (Responded accepted)) "GET"
            "/logs?count=10&created_gt=1000" None) = "GET" /\
  RequestURL (request_to (stub (Responded accepted)) "GET"
                "/logs?count=10&created_gt=1000" None)
  = "https://api.sendwithus.com/api/v1/logs?count=10&created_gt=1000" /\
  NetURL.Encode (query_Values (Some ten_after_1000)) = "count=10&created_gt=1000".
Proof.
  assert (H1 : snd (GetLogs accept_all (stub (Responded accepted))
                      (Some ten_after_1000) [])
               = ([] ++ [(request_to (stub (Responded accepted)) "GET"
                            "/logs?count=10&created_gt=1000" None,
                          Responded accepted)])%list)
    by (vm_compute; reflexivity).
  exact (conj H1 (GetLogs_query accept_all _ _ _ _ H1)).
Defined.

Lemma ResendLog_result_witness :
  snd (ResendLog accept_all (stub (Responded queued)) "log123" [])
  = ([] ++ [(request_to (stub (Responded queued)) "POST" "/resend"
               (Some (render (JObject [("log_id", JString "log123"); empty_email]))),
             Responded queued)])%list /\
  Body queued = ReadOK queued_body /\
  (StatusCode queued < 300)%Z /\
  fst (ResendLog accept_all (stub (Responded queued)) "log123" [])
  = Ok {| Resend_Success := true; Resend_Status := "queued"; Resend_ID := "log123";
          Resend_Email := {| ResendEmail_Name := ""; ResendEmail_VersionName := "" |} |}.
Proof.
  assert (H1 : snd (ResendLog accept_all (stub (Responded queued)) "log123" [])
               = ([] ++ [(request_to (stub (Responded queued)) "POST" "/resend"
                            (Some (render (JObject [("log_id", JString "log123");
                                                    empty_email]))),
                          Responded queued)])%list)
    by (vm_compute; reflexivity).
  assert (H3 : (StatusCode queued < 300)%Z) by (simpl; lia).
  exact (conj H1 (conj eq_refl (conj H3
    (ResendLog_result accept_all _ _ _ _ _ H1 eq_refl H3)))).
Defined.

Lemma no_sink_success_witness :
  Body accepted = ReadOK "" /\
  (StatusCode accepted < 300)%Z /\
  snd (Send accept_all (stub (Responded accepted)) (Some minimal_email) [])
  = ([] ++ [(request_to (stub (Responded accepted)) "POST" "/send"
               (Some (Marshal (Some minimal_email))), Responded accepted)])%list /\
  fst (Send accept_all (stub (Responded accepted)) (Some minimal_email) []) = None.
Proof.
  assert (H2 : (StatusCode accepted < 300)%Z) by (simpl; lia).
  assert (H3 : snd (Send accept_all (stub (Responded accepted)) (Some minimal_email) [])
               = ([] ++ [(request_to (stub (Responded accepted)) "POST" "/send"
                            (Some (Marshal (Some minimal_email))),
                          Responded accepted)])%list)
    by (vm_compute; reflexivity).
  exact (conj eq_refl (conj H2 (conj H3
    (proj1 (no_sink_success accept_all _ [] _ accepted "" eq_refl H2) _ H3)))).
Defined.

Lemma Templates_is_Emails_witness :
  snd (Templates accept_all (stub (Responded accepted)) [])
  = ([] ++ [(request_to (stub (Responded accepted)) "GET" "/templates" None,
             Responded accepted)])%list /\
  Method (request_to (stub (Responded accepted)) "GET" "/templates" None) = "GET" /\
  RequestURL (request_to (stub (Responded accepted)) "GET" "/templates" None)
  = "https://api.sendwithus.com/api/v1/templates" /\
  RequestBody (request_to (stub (Responded accepted)) "GET" "/templates" None) = None.
Proof.
  assert (H1 : snd (Templates accept_all (stub (Responded accepted)) [])
               = ([] ++ [(request_to (stub (Responded accepted)) "GET" "/templates"
                            None, Responded accepted)])%list)
    by (vm_compute; reflexivity).
  exact (conj H1 (proj2 (Templates_is_Emails accept_all _ []) _ _ H1)).
Defined.



(** * Further properties of the client *)

Section Table.

Variable url_Parse : string -> option string.

Lemma built_request (c : SWUClient) (m e : string) (b : option string) :
  Header_Set "X-SWU-API-CLIENT" apiHeaderClient
    (SetBasicAuth (apiKey c) ""
       {| Method := if String.eqb m "" then "GET" else m;
          RequestURL := URL c +:+ e; RequestBody := b;
          BasicAuth := None; Header := [] |})
  = request_to c m e b.
Proof. reflexivity. Qed.

(** Every method against the table: when [url.Parse] rejects the URL
    nothing is sent and its error comes back wrapped; otherwise exactly one
    request goes out and the answer decides the result as [expected] says. *)
Lemma run_table (c : SWUClient) (op : Operation) (w : Wire) :
  run url_Parse c op w =
  match url_Parse (URL c +:+ endpoint_of op) with
  | Some msg => (Err (wrapped_twice (ErrURL msg)), w)
  | None =>
      let r := request_to c (method_of op) (endpoint_of op) (body_of op) in
      (expected op (Client c r), (w ++ [(r, Client c r)])%list)
  end.
Proof.
  destruct op;
    unfold run, only_error, Templates, Emails, GetTemplate, GetTemplateVersion,
      UpdateTemplateVersion, CreateTemplate, CreateTemplateVersion, Send,
      ActivateDripCampaign, GetLogs, GetLog, GetLogEvents, ResendLog, returning,
      returning_error, makeRequest, http_NewRequest, expected, bind, ret, Do;
    cbn [method_of endpoint_of body_of has_result initial result_unmarshaler];
    unfold resend_of; cbv zeta;
    match goal with
    | |- context [validMethod ?m] =>
        change (validMethod m) with true; cbn [negb]
    end;
    (destruct (url_Parse _) as [msg|]; [reflexivity|]);
    rewrite built_request;
    match goal with
    | |- context [Client c ?r] => destruct (Client c r) as [res|res err]
    end;
    try reflexivity;
    (destruct (Body res) as [b|err]; [|reflexivity]);
    (destruct (StatusCode res >=? 300)%Z; [reflexivity|]);
    try reflexivity;
    unfold buildRespJSON;
    match goal with
    | |- context [@Unmarshal ?A ?U ?b ?p] =>
        try match goal with
            | |- context [@Unmarshal ?A' ?U' b ?p'] =>
                progress change (@Unmarshal A' U' b p') with (@Unmarshal A U b p)
            end;
        destruct (@Unmarshal A U b p) as [p' [je|]]
    end;
    reflexivity.
Qed.

(** The one exchange of a call, read off the wire with [run_table]. *)
Ltac by_table H Hr Hd :=
  unfold failure, wire_after in *; rewrite run_table in *;
  match goal with
  | _ : context [url_Parse ?u] |- _ => destruct (url_Parse u) as [?msg|] eqn:?Hurl
  end;
  cbn [fst snd] in *;
  [ by destruct (wire_unchanged _ _ H)
  | apply wire_last in H; injection H as Hr Hd ].

(** X1. The routing table. When [url.Parse] accepts the client's URL
    followed by the endpoint, a method sends exactly one request and leaves
    the earlier exchanges as they were; that request has the method, the
    endpoint and the body of the table: GET without a body for the seven
    reading methods, PUT for [UpdateTemplateVersion], POST for the rest,
    with the JSON text of the argument as the body. *)
Theorem routing_table (c : SWUClient) (op : Operation) (w : Wire) :
  url_Parse (URL c +:+ endpoint_of op) = None ->
  let r := request_to c (method_of op) (endpoint_of op) (body_of op) in
  wire_after url_Parse c op w = (w ++ [(r, Client c r)])%list /\
  Method r = method_of op /\
  RequestURL r = URL c +:+ endpoint_of op /\
  RequestBody r = body_of op.
Proof.
  intros Hu r. unfold wire_after. rewrite run_table, Hu. cbn [snd].
  split; [done|]. subst r. repeat split. destruct op; reflexivity.
Qed.

(** X2. When [url.Parse] rejects the URL (an identifier with a bad escape
    or a control character, say), the method sends nothing; it returns
    the parse error wrapped twice, which is no [SWUError] and has no code. *)
Theorem rejected_url_sends_nothing (c : SWUClient) (op : Operation) (w : Wire)
    (msg : string) :
  url_Parse (URL c +:+ endpoint_of op) = Some msg ->
  wire_after url_Parse c op w = w /\
  fst (run url_Parse c op w) = Err (Wrapped (Wrapped (ErrURL msg))) /\
  (forall sw, Cause (Wrapped (Wrapped (ErrURL msg))) <> ErrSWU sw).
Proof.
  intros Hu. unfold wire_after. rewrite run_table, Hu. by repeat split.
Qed.

(** X3. Whatever the method, endpoint, body and result, the request
    [makeRequest] hands to [Do] carries Basic authentication with the API
    key as user name and the empty password, the single header
    [X-Swu-Api-Client: golang-0.0.1], the client's URL followed by the
    endpoint, and the body it was given. *)
Theorem every_request_authenticated {A} `{Unmarshaler A} (c : SWUClient)
    (method endpoint : string) (body : option string) (result : option A)
    (w : Wire) (r : Request) (d : DoResult) :
  snd (makeRequest url_Parse c method endpoint body result w) = (w ++ [(r, d)])%list ->
  BasicAuth r = Some (apiKey c, "") /\
  Header r = [("X-Swu-Api-Client", "golang-0.0.1")] /\
  RequestURL r = URL c +:+ endpoint /\
  RequestBody r = body /\
  d = Client c r.
Proof.
  intros Hw0.
  pose proof (makeRequest_cases url_Parse c method endpoint body result w) as Hc.
  cbv zeta in Hc.
  destruct Hc as [(err & _ & Hw & _)|(r' & Hw & Hr & _)]; rewrite Hw in Hw0.
  - by destruct (wire_unchanged _ _ Hw0).
  - apply wire_last in Hw0. injection Hw0 as <- <-. by rewrite Hr.
Qed.

(** X4. When [Do] returns an error together with a response (the client
    gave up on a redirect), the code of the [SWUError] is the status code
    of that response, not 0, and the message is the text of the error. *)
Theorem redirect_give_up_keeps_status (c : SWUClient) (op : Operation) (w : Wire)
    (r : Request) (res : Response) (msg : string) :
  wire_after url_Parse c op w = (w ++ [(r, Failed (Some res) msg)])%list ->
  failure url_Parse c op w
  = Some (Wrapped (Wrapped (ErrSWU {| Code := StatusCode res; Message := msg |}))).
Proof.
  intros H. by_table H Hr Hd. by rewrite Hd.
Qed.

(** X5. A method returns without an error only if a response was
    received, its body was read to the end, and its status code is below
    300. *)
Theorem success_needs_response_below_300 (c : SWUClient) (op : Operation)
    (w : Wire) :
  failure url_Parse c op w = None ->
  exists r res b,
    wire_after url_Parse c op w = (w ++ [(r, Responded res)])%list /\
    Body res = ReadOK b /\ (StatusCode res < 300)%Z.
Proof.
  unfold failure, wire_after. rewrite run_table.
  destruct (url_Parse _) as [msg|]; cbn [fst snd]; [discriminate|].
  unfold expected.
  destruct (Client c _) as [res|res err]; [|discriminate].
  destruct (Body res) as [b|err] eqn:Hb; [|discriminate].
  destruct (Z.geb_spec (StatusCode res) 300); [discriminate|].
  intros _. eexists. exists res, b. repeat split; [done|lia].
Qed.

(** X6. With a response below 300 whose body [b] was read, a method that
    has a result returns [b] decoded into the variable it started from
    (the zero value; for [ResendLog] the record with [ID] set) when the
    decoder reports no error; when the decoder reports one, the method
    returns that error and no result, also when part of the body had been
    stored already. *)
Theorem result_is_decoded_body (c : SWUClient) (op : Operation) (w : Wire)
    (r : Request) (res : Response) (b : string) :
  wire_after url_Parse c op w = (w ++ [(r, Responded res)])%list ->
  Body res = ReadOK b ->
  (StatusCode res < 300)%Z ->
  has_result op = true ->
  fst (run url_Parse c op w)
  = match @Unmarshal _ (result_unmarshaler op) b (initial op) with
    | (_, Some je) => Err (Wrapped (Wrapped (ErrJSON je)))
    | (parse, None) => Ok parse
    end.
Proof.
  intros H Hb Hs Hres.
  assert (Hlt : (StatusCode res >=? 300)%Z = false) by lia.
  by_table H Hr Hd. unfold expected. by rewrite Hd, Hb, Hlt, Hres.
Qed.

(** X7. With a response below 300 whose body is not a JSON text (the
    empty body included), every method that has a result fails with the
    decoder's syntax error, wrapped twice. *)
Theorem non_json_body_fails (c : SWUClient) (op : Operation) (w : Wire)
    (r : Request) (res : Response) (b : string) :
  wire_after url_Parse c op w = (w ++ [(r, Responded res)])%list ->
  Body res = ReadOK b ->
  (StatusCode res < 300)%Z ->
  has_result op = true ->
  parse b = None ->
  fst (run url_Parse c op w) = Err (Wrapped (Wrapped (ErrJSON SyntaxError))).
Proof.
  intros H Hb Hs Hres Hp.
  assert (Hlt : (StatusCode res >=? 300)%Z = false) by lia.
  by_table H Hr Hd. unfold expected. rewrite Hd, Hb, Hlt, Hres.
  unfold Unmarshal. by rewrite Hp.
Qed.

(** X8. With a response below 300 whose body is the JSON [null], a method
    that has a result returns, without an error, the variable it started
    from: the zero value, and for [ResendLog] the record with only [ID]. *)
Theorem null_body_keeps_initial (c : SWUClient) (op : Operation) (w : Wire)
    (r : Request) (res : Response) (b : string) :
  wire_after url_Parse c op w = (w ++ [(r, Responded res)])%list ->
  Body res = ReadOK b ->
  (StatusCode res < 300)%Z ->
  has_result op = true ->
  parse b = Some JNull ->
  fst (run url_Parse c op w) = Ok (initial op).
Proof.
  intros H Hb Hs Hres Hp.
  assert (Hlt : (StatusCode res >=? 300)%Z = false) by lia.
  by_table H Hr Hd. unfold expected. rewrite Hd, Hb, Hlt, Hres.
  unfold Unmarshal. rewrite Hp.
  destruct op; try discriminate Hres; reflexivity.
Qed.

(** X9. A method called with the nil pointer for its record does not fail
    before the request: the request goes out with the body [null]. *)
Theorem nil_argument_sends_null (c : SWUClient) (op : Operation) (w : Wire)
    (r : Request) (d : DoResult) :
  nil_argument op = true ->
  wire_after url_Parse c op w = (w ++ [(r, d)])%list ->
  RequestBody r = Some "null".
Proof.
  intros Hnil H. by_table H Hr Hd. subst r.
  destruct op as [| | | |? ? [?|]|[?|]|? [?|]|[?|]|? [?|]| | | |];
    try discriminate Hnil; reflexivity.
Qed.

(** X10. Every error a method returns is wrapped exactly twice around an
    [SWUError], a decoder error or a [url.Parse] error; the methods of the
    source never hand [http.NewRequest] an invalid method. *)
Theorem error_kinds (c : SWUClient) (op : Operation) (w : Wire) (e : error) :
  failure url_Parse c op w = Some e ->
  exists base,
    e = Wrapped (Wrapped base) /\
    ((exists sw, base = ErrSWU sw) \/ (exists je, base = ErrJSON je) \/
     (exists msg, base = ErrURL msg)).
Proof.
  unfold failure. rewrite run_table.
  destruct (url_Parse _) as [msg|]; cbn [fst snd].
  { intros [= <-]. eexists. split; [reflexivity|]. right. right. by eexists. }
  unfold expected.
  destruct (Client c _) as [res|res err].
  2:{ intros [= <-]. eexists. split; [reflexivity|]. left. by eexists. }
  destruct (Body res) as [b|err].
  2:{ intros [= <-]. eexists. split; [reflexivity|]. left. by eexists. }
  destruct (StatusCode res >=? 300)%Z.
  { intros [= <-]. eexists. split; [reflexivity|]. left. by eexists. }
  destruct (has_result op); [|discriminate].
  destruct (Unmarshal b (initial op)) as [p [je|]]; [|discriminate].
  intros [= <-]. eexists. split; [reflexivity|]. right. left. by eexists.
Qed.

(** X11. A client made by [New] sends every request of every method to
    [https://api.sendwithus.com/api/v1] followed by the endpoint, with the
    key it was given as the user name of Basic authentication, an empty
    password, and the client header. *)
Theorem New_targets_sendwithus (DefaultClient : Request -> DoResult)
    (key : string) (op : Operation) (w : Wire) (r : Request) (d : DoResult) :
  wire_after url_Parse (New DefaultClient key) op w = (w ++ [(r, d)])%list ->
  RequestURL r = "https://api.sendwithus.com/api/v1" +:+ endpoint_of op /\
  Method r = method_of op /\
  BasicAuth r = Some (key, "") /\
  Header r = [("X-Swu-Api-Client", "golang-0.0.1")] /\
  d = DefaultClient r.
Proof.
  intros H. by_table H Hr Hd. subst r d.
  repeat split. destruct op; reflexivity.
Qed.

(** X12. Identifiers go into the endpoint as they are, without escaping:
    [GetTemplate] with the identifier [id/versions/version] makes the
    exchange [GetTemplateVersion] makes with [id] and [version], and
    [GetLog] with [id/events] the exchange of [GetLogEvents] with [id]. *)
Theorem identifiers_not_escaped (c : SWUClient) (id version : string) (w : Wire) :
  wire_after url_Parse c (OpGetTemplate (id +:+ "/versions/" +:+ version)) w
  = wire_after url_Parse c (OpGetTemplateVersion id version) w /\
  wire_after url_Parse c (OpGetLog (id +:+ "/events")) w
  = wire_after url_Parse c (OpGetLogEvents id) w.
Proof.
  unfold wire_after. rewrite !run_table.
  cbn [endpoint_of method_of body_of].
  split; destruct (url_Parse _); reflexivity.
Qed.

End Table.

(** ** Numbers in decimal *)

Lemma pretty_N_char_digit (d : N) :
  (d < 10)%N ->
  is_digit (pretty_N_char d) = true /\
  Z.of_N (Bytes.byte_val (pretty_N_char d) - 48) = Z.of_N d /\
  NetURL.shouldEscape (pretty_N_char d) = false /\
  pretty_N_char d <> " "%char.
Proof.
  intros Hd.
  assert (d = 0 \/ d = 1 \/ d = 2 \/ d = 3 \/ d = 4 \/ d = 5 \/ d = 6 \/ d = 7 \/
          d = 8 \/ d = 9)%N as Hcases by lia.
  repeat (destruct Hcases as [->|Hcases]); try subst d; by vm_compute.
Qed.

(** [digits_value] reads back the digits [pretty_N_go] writes. *)
Lemma digits_value_pretty_N_go (x : N) :
  forall (s : string) (acc : Z),
    exists k : nat,
      digits_value acc (pretty_N_go x s)
      = digits_value (acc * 10 ^ Z.of_nat k + Z.of_N x) s.
Proof.
  induction (N.lt_wf_0 x) as [x _ IH]. intros s acc.
  assert (x = 0 \/ 0 < x)%N as [->|Hpos] by lia.
  { exists 0%nat. rewrite pretty_N_go_0. f_equal. simpl. lia. }
  rewrite pretty_N_go_step by done.
  destruct (IH (x / 10)%N (N.div_lt x 10 Hpos eq_refl)
              (String (pretty_N_char (x mod 10)) s) acc) as [k Hk].
  exists (S k). rewrite Hk. cbn [digits_value].
  destruct (pretty_N_char_digit (x mod 10)%N) as (-> & -> & _);
    [by apply N.mod_lt|].
  f_equal. rewrite Nat2Z.inj_succ, Z.pow_succ_r by lia.
  pose proof (N.div_mod x 10). lia.
Qed.

Lemma digits_value_pretty_positive (p : positive) :
  digits_value 0 (pretty_N_go (N.pos p) "") = Some (Z.pos p).
Proof.
  destruct (digits_value_pretty_N_go (N.pos p) "" 0) as [k ->]. simpl. done.
Qed.

Lemma parse_int64_unsigned (c : ascii) (rest : string) :
  c <> "-"%char ->
  parse_int64 (String c rest)
  = digits_value 0 (String c rest) ≫= fun z : Z =>
      if ((- 2 ^ 63 <=? z) && (z <? 2 ^ 63))%Z then Some z else None.
Proof.
  intros Hc. unfold parse_int64.
  destruct c as [[] [] [] [] [] [] [] []]; try reflexivity. by destruct Hc.
Qed.

Lemma parse_int64_pretty (z : Z) : int64 z -> parse_int64 (pretty z) = Some z.
Proof.
  unfold int64. intros Hz.
  assert (Hin : forall y : Z, (- 2 ^ 63 <= y < 2 ^ 63)%Z ->
            (if ((- 2 ^ 63 <=? y) && (y <? 2 ^ 63))%Z then Some y else None) = Some y).
  { intros y Hy.
    destruct (Z.leb_spec (- 2 ^ 63) y); [|lia].
    destruct (Z.ltb_spec y (2 ^ 63)); [|lia]. done. }
  destruct z as [|p|p].
  - vm_compute. reflexivity.
  - change (pretty (Z.pos p)) with (pretty_N_go (N.pos p) "").
    pose proof (digits_value_pretty_positive p) as Hd.
    destruct (pretty_N_go (N.pos p) "") as [|c rest] eqn:E; [discriminate Hd|].
    rewrite parse_int64_unsigned, Hd; [exact (Hin _ Hz)|].
    intros ->. by apply (pretty_N_go_ne_dash (N.pos p) "" rest).
  - change (pretty (Z.neg p)) with ("-" +:+ pretty_N_go (N.pos p) "").
    pose proof (digits_value_pretty_positive p) as Hd.
    destruct (pretty_N_go (N.pos p) "") as [|c rest] eqn:E; [discriminate Hd|].
    change ("-" +:+ String c rest) with (String "-" (String c rest)).
    unfold parse_int64. rewrite Hd. exact (Hin (- Z.pos p)%Z ltac:(lia)).
Qed.

(** ** Records through JSON and back *)

Ltac split_empty :=
  repeat match goal with
         | |- context [String.eqb ?s ""] =>
             destruct (String.eqb_spec s ""); [subst s|]
         | |- context [(?z =? 0)%Z] => destruct (Z.eqb_spec z 0); [subst z|]
         end.

(** The members written for a version, read into the zero version. *)
Lemma decode_encode_version (v : SWUVersion) :
  int64 (Version_Created v) ->
  decode (encode v) (zero : SWUVersion) = (v, None).
Proof.
  destruct v as [name id created html text subject published]. simpl. intros Hc.
  unfold SWUVersion_members, member. cbn.
  split_empty; destruct published; cbn;
    rewrite ?parse_int64_pretty by done; reflexivity.
Qed.

(** X13. A version whose [Created] is an [int64] comes back unchanged
    when the JSON value written for it is decoded into the zero version,
    and so does a pointer to it; the nil pointer is written as [null] and
    comes back nil. The fields left out by [omitempty] are the ones that
    are zero already, and no field is lost or moved to another. *)
Theorem Version_round_trip (v : SWUVersion) :
  int64 (Version_Created v) ->
  decode (encode v) (zero : SWUVersion) = (v, None) /\
  decode (encode (Some v)) (zero : option SWUVersion) = (Some v, None) /\
  decode (encode (@None SWUVersion)) (zero : option SWUVersion) = (None, None).
Proof.
  intros Hc. split; [exact (decode_encode_version v Hc)|]. split; [|reflexivity].
  change (decode (encode (Some v)) (zero : option SWUVersion))
    with (let '(a, e) := decode (encode v) (zero : SWUVersion) in (Some a, e)).
  by rewrite (decode_encode_version v Hc).
Qed.

Lemma decode_items_strings (l : list string) :
  decode_items (map encode l) [] = (l, None).
Proof.
  induction l as [|s l IH]; [reflexivity|].
  cbn [map decode_items head tail default]. rewrite IH. reflexivity.
Qed.

Lemma decode_items_versions (l : list (option SWUVersion)) :
  Forall (fun o => match o with Some v => int64 (Version_Created v) | None => True end) l ->
  decode_items (map encode l) [] = (l, None).
Proof.
  induction 1 as [|o l Ho _ IH]; [reflexivity|].
  cbn [map decode_items head tail default]. rewrite IH.
  destruct o as [v|]; [|reflexivity].
  change (decode (encode (Some v)) (zero : option SWUVersion))
    with (let '(a, e) := decode (encode v) (zero : SWUVersion) in (Some a, e)).
  by rewrite (decode_encode_version v Ho).
Qed.

(** X14. A template whose [Created] and whose versions' [Created] are
    [int64] comes back unchanged, with its tags and its versions in their
    order (nil versions included), when the document [Marshal] writes for
    it is decoded into the zero template. *)
Theorem Template_round_trip (t : SWUTemplate) :
  int64 (Template_Created t) ->
  Forall (fun o => match o with Some v => int64 (Version_Created v) | None => True end)
         (Template_Versions t) ->
  decode (encode t) (zero : SWUTemplate) = (t, None).
Proof.
  destruct t as [id tags created versions name].
  cbn [Template_Created Template_Versions]. intros Hc Hv.
  change (encode ?x) with (JObject (SWUTemplate_members x)) at 1.
  unfold SWUTemplate_members, member.
  cbn [Template_ID Template_Tags Template_Created Template_Versions Template_Name].
  destruct tags as [|t0 tags'];
    [|change (is_empty (t0 :: tags')) with false;
      change (encode (t0 :: tags')) with (JArray (map encode (t0 :: tags')));
      generalize (t0 :: tags'); intros tags];
    (destruct versions as [|v0 versions'];
     [|change (is_empty (v0 :: versions')) with false;
       change (encode (v0 :: versions')) with (JArray (map encode (v0 :: versions')));
       revert Hv; generalize (v0 :: versions'); intros versions Hv]);
    cbn; split_empty; cbn;
    rewrite ?parse_int64_pretty by done;
    repeat match goal with
           | |- context [@decode_items ?A ?U ?items ?old] =>
               first
                 [ replace (@decode_items A U items old) with (tags, @None json_error)
                     by (symmetry; apply decode_items_strings)
                 | replace (@decode_items A U items old) with (versions, @None json_error)
                     by (symmetry; apply (decode_items_versions versions Hv)) ]
           end;
    reflexivity.
Qed.

(** X15. A resend record comes back unchanged when the JSON value written
    for it is decoded into the zero record: [email] is always written,
    with both of its members, and the three other fields when not zero. *)
Theorem Resend_round_trip (r : SWULogResend) :
  decode (encode r) (zero : SWULogResend) = (r, None).
Proof.
  destruct r as [success status id [name version_name]].
  unfold encode, SWULogResend_marshaler, SWULogResend_members, member. cbn.
  split_empty; destruct success; reflexivity.
Qed.

(** ** The query string of [GetLogs] *)

Lemma QueryEscape_pretty_N_go (x : N) :
  forall s : string,
    NetURL.QueryEscape s = s ->
    NetURL.QueryEscape (pretty_N_go x s) = pretty_N_go x s.
Proof.
  induction (N.lt_wf_0 x) as [x _ IH]. intros s Hs.
  assert (x = 0 \/ 0 < x)%N as [->|Hpos] by lia.
  { by rewrite pretty_N_go_0. }
  rewrite pretty_N_go_step by done.
  apply IH; [by apply N.div_lt|].
  destruct (pretty_N_char_digit (x mod 10)%N) as (_ & _ & Hesc & Hsp);
    [by apply N.mod_lt|].
  cbn [NetURL.QueryEscape]. rewrite Hesc, Hs.
  destruct (Ascii.eqb_spec (pretty_N_char (x mod 10)) " "%char); [done|].
  reflexivity.
Qed.

(** A number in decimal needs no escaping in a query. *)
Lemma QueryEscape_pretty (z : Z) : NetURL.QueryEscape (pretty z) = pretty z.
Proof.
  destruct z as [|p|p].
  - reflexivity.
  - by apply (QueryEscape_pretty_N_go (N.pos p) "").
  - change (pretty (Z.neg p)) with (String "-" (pretty_N_go (N.pos p) "")).
    cbn [NetURL.QueryEscape].
    by rewrite (QueryEscape_pretty_N_go (N.pos p) "").
Qed.

(** X16. For every query, the query string [GetLogs] puts after [/logs?]
    lists exactly the filters that are not 0, each as [name=value] with the
    value in decimal, joined by [&] in the order of the names: count,
    created_gt, created_gte, created_lt, created_lte, offset.  The nil
    query and the query of zeros give the empty string. *)
Theorem GetLogs_query_text (q : SWULogQuery) :
  NetURL.Encode (query_Values (Some q)) = query_text q /\
  NetURL.Encode (query_Values None) = "".
Proof.
  split; [|by vm_compute].
  destruct q as [n o gt gte lt lte].
  unfold query_text, query_filters, query_Values, query_int, NetURL.Encode.
  cbn [Query_Count Query_Offset Query_CreatedGT Query_CreatedGTE Query_CreatedLT
       Query_CreatedLTE List.filter fst snd].
  destruct (n =? 0)%Z, (o =? 0)%Z, (gt =? 0)%Z, (gte =? 0)%Z, (lt =? 0)%Z,
    (lte =? 0)%Z;
    cbn [map negb fst snd];
    repeat match goal with
           | |- context [pretty ?z] =>
               let H := fresh "Hesc" in
               pose proof (QueryEscape_pretty z) as H; revert H;
               generalize (pretty z); intros ? H
           end;
    match goal with
    | |- context [merge_sort ?R (map_to_list ?v)] =>
        let l := eval vm_compute in (merge_sort R (map_to_list v)) in
        replace (merge_sort R (map_to_list v)) with l by (vm_compute; reflexivity)
    end;
    cbn [flat_map map app fst snd];
    repeat match goal with
           | H : NetURL.QueryEscape ?s = ?s |- _ => rewrite H; clear H
           end;
    reflexivity.
Qed.

(** ** The text of an error *)

Lemma split_at_comma (a1 : string) :
  forall a2 t1 t2 : string,
    (forall c, In c (list_ascii_of_string a1) -> c <> ","%char) ->
    (forall c, In c (list_ascii_of_string a2) -> c <> ","%char) ->
    a1 +:+ String "," t1 = a2 +:+ String "," t2 ->
    a1 = a2 /\ t1 = t2.
Proof.
  induction a1 as [|c1 a1 IH]; intros [|c2 a2] t1 t2 H1 H2 E; cbn in E.
  - by injection E.
  - injection E as Ec _. destruct (H2 c2); [by left|done].
  - injection E as Ec _. destruct (H1 c1); [by left|done].
  - injection E as -> E.
    destruct (IH a2 t1 t2) as [-> ->]; [| |done|done].
    + intros c Hc. apply H1. by right.
    + intros c Hc. apply H2. by right.
Qed.

Lemma pretty_N_go_no_comma (x : N) :
  forall s : string,
    (forall c, In c (list_ascii_of_string s) -> c <> ","%char) ->
    forall c, In c (list_ascii_of_string (pretty_N_go x s)) -> c <> ","%char.
Proof.
  induction (N.lt_wf_0 x) as [x _ IH]. intros s Hs.
  assert (x = 0 \/ 0 < x)%N as [->|Hpos] by lia.
  { by rewrite pretty_N_go_0. }
  rewrite pretty_N_go_step by done.
  apply IH; [by apply N.div_lt|].
  intros c [<-|Hc]; [|by apply Hs].
  unfold pretty_N_char. by repeat case_match.
Qed.

Lemma pretty_Z_no_comma (z : Z) (c : ascii) :
  In c (list_ascii_of_string (pretty z)) -> c <> ","%char.
Proof.
  destruct z as [|p|p].
  - intros [<-|[]]. done.
  - by apply (pretty_N_go_no_comma (N.pos p) ""); intros ? [].
  - change (pretty (Z.neg p)) with (String "-" (pretty_N_go (N.pos p) "")).
    intros [<-|Hc]; [done|].
    revert Hc. by apply (pretty_N_go_no_comma (N.pos p) ""); intros ? [].
Qed.

(** X17. The text of an [SWUError] tells the error: two errors with the
    same text have the same code and the same message, also when the
    message itself contains [, Error: ]. *)
Theorem Error_text_injective (e1 e2 : SWUError) :
  SWUError_Error e1 = SWUError_Error e2 -> e1 = e2.
Proof.
  destruct e1 as [c1 m1], e2 as [c2 m2]. unfold SWUError_Error.
  cbn [Code Message]. intros E.
  apply (inj (String.append "swu.go: Status code: ")) in E.
  change (", Error: " +:+ m1) with (String "," (" Error: " +:+ m1)) in E.
  change (", Error: " +:+ m2) with (String "," (" Error: " +:+ m2)) in E.
  apply split_at_comma in E; [|apply pretty_Z_no_comma..].
  destruct E as [Ec Em].
  apply (inj pretty) in Ec. apply (inj (String.append " Error: ")) in Em.
  by subst.
Qed.

(** ** Worked calls for the further properties *)

Lemma routing_table_witness :
  accept_all (URL (stub (Responded accepted))
              +:+ endpoint_of (OpUpdateTemplateVersion "t1" "v2" (Some first_version)))
  = None /\
  wire_after accept_all (stub (Responded accepted))
    (OpUpdateTemplateVersion "t1" "v2" (Some first_version)) []
  = ([] ++ [(request_to (stub (Responded accepted)) "PUT" "/templates/t1/versions/v2"
               (Some (Marshal (Some first_version))), Responded accepted)])%list.
Proof.
  exact (conj eq_refl
    (proj1 (routing_table accept_all (stub (Responded accepted))
              (OpUpdateTemplateVersion "t1" "v2" (Some first_version)) [] eq_refl))).
Defined.

Lemma rejected_url_sends_nothing_witness :
  reject_all (URL (stub (Responded accepted)) +:+ endpoint_of (OpGetTemplate "%zz"))
  = Some "invalid URL escape" /\
  wire_after reject_all (stub (Responded accepted)) (OpGetTemplate "%zz") [] = [] /\
  fst (run reject_all (stub (Responded accepted)) (OpGetTemplate "%zz") [])
  = Err (Wrapped (Wrapped (ErrURL "invalid URL escape"))).
Proof.
  pose proof (rejected_url_sends_nothing reject_all (stub (Responded accepted))
                (OpGetTemplate "%zz") [] "invalid URL escape" eq_refl) as H.
  exact (conj eq_refl (conj (proj1 H) (proj1 (proj2 H)))).
Defined.

Lemma every_request_authenticated_witness :
  snd (makeRequest accept_all (stub (Responded accepted)) "POST" "/send"
         (Some "{}") (@None unit) [])
  = ([] ++ [(request_to (stub (Responded accepted)) "POST" "/send" (Some "{}"),
             Responded accepted)])%list /\
  BasicAuth (request_to (stub (Responded accepted)) "POST" "/send" (Some "{}"))
  = Some ("key", "") /\
  Header (request_to (stub (Responded accepted)) "POST" "/send" (Some "{}"))
  = [("X-Swu-Api-Client", "golang-0.0.1")].
Proof.
  assert (H1 : snd (makeRequest accept_all (stub (Responded accepted)) "POST" "/send"
                      (Some "{}") (@None unit) [])
               = ([] ++ [(request_to (stub (Responded accepted)) "POST" "/send"
                            (Some "{}"), Responded accepted)])%list)
    by (vm_compute; reflexivity).
  pose proof (every_request_authenticated accept_all _ _ _ _ _ _ _ _ H1) as H.
  exact (conj H1 (conj (proj1 H) (proj1 (proj2 H)))).
Defined.

Lemma redirect_give_up_keeps_status_witness :
  wire_after accept_all (stub (Failed (Some found_elsewhere) "stopped after 10 redirects"))
    OpTemplates []
  = ([] ++ [(request_to (stub (Failed (Some found_elsewhere)
                                  "stopped after 10 redirects")) "GET" "/templates" None,
             Failed (Some found_elsewhere) "stopped after 10 redirects")])%list /\
  failure accept_all (stub (Failed (Some found_elsewhere) "stopped after 10 redirects"))
    OpTemplates []
  = Some (Wrapped (Wrapped (ErrSWU {| Code := 302;
                                      Message := "stopped after 10 redirects" |}))).
Proof.
  assert (H1 : wire_after accept_all
                 (stub (Failed (Some found_elsewhere) "stopped after 10 redirects"))
                 OpTemplates []
               = ([] ++ [(request_to (stub (Failed (Some found_elsewhere)
                                               "stopped after 10 redirects"))
                            "GET" "/templates" None,
                          Failed (Some found_elsewhere)
                            "stopped after 10 redirects")])%list)
    by (vm_compute; reflexivity).
  exact (conj H1 (redirect_give_up_keeps_status accept_all _ _ _ _ _ _ H1)).
Defined.

Lemma success_needs_response_below_300_witness :
  failure accept_all (stub (Responded accepted)) (OpSend (Some minimal_email)) [] = None /\
  exists r res b,
    wire_after accept_all (stub (Responded accepted)) (OpSend (Some minimal_email)) []
    = ([] ++ [(r, Responded res)])%list /\
    Body res = ReadOK b /\ (StatusCode res < 300)%Z.
Proof.
  assert (H1 : failure accept_all (stub (Responded accepted))
                 (OpSend (Some minimal_email)) [] = None)
    by (vm_compute; reflexivity).
  exact (conj H1 (success_needs_response_below_300 accept_all _ _ [] H1)).
Defined.

Lemma result_is_decoded_body_witness :
  wire_after accept_all (stub (Responded queued)) (OpResendLog "log123") []
  = ([] ++ [(request_to (stub (Responded queued)) "POST" "/resend"
               (Some (Marshal (Some (resend_of "log123")))), Responded queued)])%list /\
  Body queued = ReadOK queued_body /\
  (StatusCode queued < 300)%Z /\
  has_result (OpResendLog "log123") = true /\
  fst (run accept_all (stub (Responded queued)) (OpResendLog "log123") [])
  = match Unmarshal queued_body (resend_of "log123") with
    | (_, Some je) => Err (Wrapped (Wrapped (ErrJSON je)))
    | (parse, None) => Ok parse
    end.
Proof.
  assert (H1 : wire_after accept_all (stub (Responded queued)) (OpResendLog "log123") []
               = ([] ++ [(request_to (stub (Responded queued)) "POST" "/resend"
                            (Some (Marshal (Some (resend_of "log123")))),
                          Responded queued)])%list)
    by (vm_compute; reflexivity).
  assert (H3 : (StatusCode queued < 300)%Z) by (simpl; lia).
  exact (conj H1 (conj eq_refl (conj H3 (conj eq_refl
    (result_is_decoded_body accept_all _ (OpResendLog "log123") _ _ _ _
       H1 eq_refl H3 eq_refl))))).
Defined.

Lemma non_json_body_fails_witness :
  wire_after accept_all (stub (Responded accepted)) (OpGetLog "l1") []
  = ([] ++ [(request_to (stub (Responded accepted)) "GET" "/logs/l1" None,
             Responded accepted)])%list /\
  Body accepted = ReadOK "" /\
  (StatusCode accepted < 300)%Z /\
  has_result (OpGetLog "l1") = true /\
  parse "" = None /\
  fst (run accept_all (stub (Responded accepted)) (OpGetLog "l1") [])
  = Err (Wrapped (Wrapped (ErrJSON SyntaxError))).
Proof.
  assert (H1 : wire_after accept_all (stub (Responded accepted)) (OpGetLog "l1") []
               = ([] ++ [(request_to (stub (Responded accepted)) "GET" "/logs/l1" None,
                          Responded accepted)])%list)
    by (vm_compute; reflexivity).
  assert (H3 : (StatusCode accepted < 300)%Z) by (simpl; lia).
  exact (conj H1 (conj eq_refl (conj H3 (conj eq_refl (conj eq_refl
    (non_json_body_fails accept_all _ (OpGetLog "l1") _ _ _ _
       H1 eq_refl H3 eq_refl eq_refl)))))).
Defined.

Lemma null_body_keeps_initial_witness :
  wire_after accept_all (stub (Responded null_response)) (OpGetLogs None) []
  = ([] ++ [(request_to (stub (Responded null_response)) "GET" "/logs?" None,
             Responded null_response)])%list /\
  Body null_response = ReadOK "null" /\
  (StatusCode null_response < 300)%Z /\
  has_result (OpGetLogs None) = true /\
  parse "null" = Some JNull /\
  fst (run accept_all (stub (Responded null_response)) (OpGetLogs None) []) = Ok [].
Proof.
  assert (H1 : wire_after accept_all (stub (Responded null_response)) (OpGetLogs None) []
               = ([] ++ [(request_to (stub (Responded null_response)) "GET" "/logs?"
                            None, Responded null_response)])%list)
    by (vm_compute; reflexivity).
  assert (H3 : (StatusCode null_response < 300)%Z) by (simpl; lia).
  assert (H5 : parse "null" = Some JNull) by (vm_compute; reflexivity).
  exact (conj H1 (conj eq_refl (conj H3 (conj eq_refl (conj H5
    (null_body_keeps_initial accept_all _ (OpGetLogs None) _ _ _ _
       H1 eq_refl H3 eq_refl H5)))))).
Defined.

Lemma nil_argument_sends_null_witness :
  nil_argument (OpSend None) = true /\
  wire_after accept_all (stub (Responded accepted)) (OpSend None) []
  = ([] ++ [(request_to (stub (Responded accepted)) "POST" "/send" (Some "null"),
             Responded accepted)])%list /\
  RequestBody (request_to (stub (Responded accepted)) "POST" "/send" (Some "null"))
  = Some "null".
Proof.
  assert (H2 : wire_after accept_all (stub (Responded accepted)) (OpSend None) []
               = ([] ++ [(request_to (stub (Responded accepted)) "POST" "/send"
                            (Some "null"), Responded accepted)])%list)
    by (vm_compute; reflexivity).
  exact (conj eq_refl (conj H2
    (nil_argument_sends_null accept_all _ (OpSend None) _ _ _ eq_refl H2))).
Defined.

Lemma error_kinds_witness :
  failure accept_all (stub (Responded moved)) (OpGetLogEvents "l1") []
  = Some (Wrapped (Wrapped (ErrSWU {| Code := 301; Message := "" |}))) /\
  exists base,
    Wrapped (Wrapped (ErrSWU {| Code := 301; Message := "" |})) = Wrapped (Wrapped base) /\
    ((exists sw, base = ErrSWU sw) \/ (exists je, base = ErrJSON je) \/
     (exists msg, base = ErrURL msg)).
Proof.
  assert (H1 : failure accept_all (stub (Responded moved)) (OpGetLogEvents "l1") []
               = Some (Wrapped (Wrapped (ErrSWU {| Code := 301; Message := "" |}))))
    by (vm_compute; reflexivity).
  exact (conj H1 (error_kinds accept_all _ _ _ _ H1)).
Defined.

Lemma Version_round_trip_witness :
  int64 (Version_Created first_version) /\
  decode (encode first_version) (zero : SWUVersion) = (first_version, None).
Proof.
  assert (H1 : int64 (Version_Created first_version)) by (unfold int64; simpl; lia).
  exact (conj H1 (proj1 (Version_round_trip first_version H1))).
Defined.

Lemma Template_round_trip_witness :
  int64 (Template_Created welcome_template) /\
  Forall (fun o => match o with Some v => int64 (Version_Created v) | None => True end)
         (Template_Versions welcome_template) /\
  decode (encode welcome_template) (zero : SWUTemplate) = (welcome_template, None).
Proof.
  assert (H1 : int64 (Template_Created welcome_template)) by (unfold int64; simpl; lia).
  assert (H2 : Forall (fun o => match o with
                                | Some v => int64 (Version_Created v)
                                | None => True
                                end) (Template_Versions welcome_template)).
  { repeat constructor; unfold int64; simpl; lia. }
  exact (conj H1 (conj H2 (Template_round_trip welcome_template H1 H2))).
Defined.

Lemma New_targets_sendwithus_witness :
  wire_after accept_all (New (fun _ => Responded accepted) "key") (OpGetLog "l1") []
  = ([] ++ [(request_to (stub (Responded accepted)) "GET" "/logs/l1" None,
             Responded accepted)])%list /\
  RequestURL (request_to (stub (Responded accepted)) "GET" "/logs/l1" None)
  = "https://api.sendwithus.com/api/v1/logs/l1" /\
  BasicAuth (request_to (stub (Responded accepted)) "GET" "/logs/l1" None)
  = Some ("key", "").
Proof.
  assert (H1 : wire_after accept_all (New (fun _ => Responded accepted) "key")
                 (OpGetLog "l1") []
               = ([] ++ [(request_to (stub (Responded accepted)) "GET" "/logs/l1" None,
                          Responded accepted)])%list)
    by (vm_compute; reflexivity).
  pose proof (New_targets_sendwithus accept_all _ _ _ _ _ _ H1) as H.
  exact (conj H1 (conj (proj1 H) (proj1 (proj2 (proj2 H))))).
Defined.

Lemma Error_text_injective_witness :
  SWUError_Error {| Code := 404; Message := "not found" |}
  = "swu.go: Status code: 404, Error: not found" /\
  {| Code := 404; Message := "not found" |} = {| Code := 404; Message := "not found" |}.
Proof.
  exact (conj eq_refl
    (Error_text_injective {| Code := 404; Message := "not found" |}
       {| Code := 404; Message := "not found" |} eq_refl)).
Defined.
